(** * CObot+ attendance server: a model of [raspberry-pi/app_optimized.py]

    The development follows the layout of the Python module: the time
    helpers, the automatic attendance window (resolver and cache), the
    attendance writer with its storage calls, the bounded dispatch queue
    of the streaming loop and the camera reconnection loop.  Storage
    (Supabase) is modelled as tables of rows; every [.execute()] may raise,
    which is decided by a fault schedule carried in the state. *)

From Stdlib Require Import ZArith String Ascii List Bool Lia.
From stdpp Require Import gmap strings list pretty.
Import ListNotations.

Local Open Scope string_scope.
Local Open Scope Z_scope.

(** ** Python primitives *)

Module Py.

(** The exceptions the modelled code can meet.  All of them derive from
    [Exception], so an [except Exception] handler catches every one. *)
Inductive exn : Type :=
| ValueError      (* int() of a non-number, datetime.time out of range *)
| IndexError      (* parts[1] of a one-element list *)
| TypeError       (* subscripting None *)
| StorageError    (* a storage call that could not be completed *)
| QueueFull.      (* queue.Full *)

Inductive result (A : Type) : Type :=
| Ok (a : A)
| Raise (e : exn).
Arguments Ok {A} a.
Arguments Raise {A} e.

Definition rbind {A B} (r : result A) (k : A -> result B) : result B :=
  match r with
  | Ok a => k a
  | Raise e => Raise e
  end.

(** [s.split(sep)] for a one-character separator: every occurrence
    splits, empty pieces are kept, the result is never empty. *)
Fixpoint split (sep : ascii) (s : string) : list string :=
  match s with
  | EmptyString => [EmptyString]
  | String c s' =>
      if Ascii.eqb c sep then EmptyString :: split sep s'
      else match split sep s' with
           | [] => [String c EmptyString]
           | p :: ps => String c p :: ps
           end
  end.

(** ASCII white space as [str.strip] and [int] see it. *)
Definition is_space (c : ascii) : bool :=
  let n := Z.of_nat (nat_of_ascii c) in
  ((9 <=? n) && (n <=? 13)) || ((28 <=? n) && (n <=? 32)).

Definition digit_val (c : ascii) : option Z :=
  let n := Z.of_nat (nat_of_ascii c) in
  if (48 <=? n) && (n <=? 57) then Some (n - 48) else None.

Fixpoint lstrip (s : string) : string :=
  match s with
  | String c s' => if is_space c then lstrip s' else s
  | EmptyString => EmptyString
  end.

Fixpoint rstrip (s : string) : string :=
  match s with
  | EmptyString => EmptyString
  | String c s' =>
      match rstrip s' with
      | EmptyString => if is_space c then EmptyString else String c EmptyString
      | r => String c r
      end
  end.

(** Digits with single underscores between them, accumulated in base
    ten.  [prev_digit] tells whether the previous character was a digit
    (an underscore is only legal right after one and right before one). *)
Fixpoint digits (acc : Z) (prev_digit : bool) (s : string) : option Z :=
  match s with
  | EmptyString => if prev_digit then Some acc else None
  | String c s' =>
      match digit_val c with
      | Some d => digits (10 * acc + d) true s'
      | None =>
          if Ascii.eqb c "_"%char && prev_digit then
            match s' with
            | String c' _ =>
                match digit_val c' with
                | Some _ => digits acc false s'
                | None => None
                end
            | EmptyString => None
            end
          else None
      end
  end.

(** [int(s)] in base ten on ASCII text: surrounding white space, one
    optional sign, then digits.  Anything else is a [ValueError].
    (Python also reads non-ASCII decimal digits; the model works on
    ASCII strings, the form a storage time column is serialised in.) *)
Definition int (s : string) : result Z :=
  let body := rstrip (lstrip s) in
  let '(neg, ds) :=
    match body with
    | String "-"%char r => (true, r)
    | String "+"%char r => (false, r)
    | _ => (false, body)
    end in
  match ds with
  | EmptyString => Raise ValueError
  | String c _ =>
      match digit_val c with
      | None => Raise ValueError
      | Some _ =>
          match digits 0 false ds with
          | Some n => Ok (if neg then - n else n)
          | None => Raise ValueError
          end
      end
  end.

(** [f"{n:02d}"]: decimal, zero-padded to width two; the sign counts
    towards the width, so [-1] prints as [-1] and [5] as [05]. *)
Definition fmt02d (n : Z) : string :=
  let s := pretty n in
  if (Z.of_nat (String.length s) <? 2) then "0" +:+ s else s.

(** Truthiness of a string: [not s] holds exactly for the empty one. *)
Definition truthy (s : string) : bool :=
  match s with
  | EmptyString => false
  | _ => true
  end.

End Py.

Import Py.

Notation "x <- r ;; k" := (rbind r (fun x => k))
  (at level 100, r at next level, right associativity, only parsing).

(** ** Configuration *)

Module CONFIG.
Definition EARLY_WINDOW_MINUTES : Z := 15.
Definition LATE_GRACE_MINUTES : Z := 15.
Definition END_BUFFER_MINUTES : Z := 15.
(** Seconds between two window checks. *)
Definition WINDOW_CHECK_INTERVAL : Z := 30.
Definition MAX_CAMERA_RETRIES : Z := 5.
(** [face_queue = queue.Queue(maxsize=3)] *)
Definition FACE_QUEUE_MAXSIZE : Z := 3.
End CONFIG.

(** ** Time helpers *)

(** A [datetime.time]: the constructor checks the ranges. *)
Record time : Type := mk_time {
  hour : Z;
  minute : Z;
  second : Z
}.

Definition datetime_time (h m s : Z) : result time :=
  if (0 <=? h) && (h <=? 23) && (0 <=? m) && (m <=? 59) && (0 <=? s) && (s <=? 59)
  then Ok (mk_time h m s)
  else Raise ValueError.

(** Convert time object to minutes since midnight. *)
Definition time_to_minutes (t : time) : Z :=
  hour t * 60 + minute t.

(** Parse HH:MM:SS string to time object. *)
Definition parse_time_string (time_str : string) : result time :=
  let parts := Py.split ":"%char time_str in
  match parts with
  | [] => Raise IndexError
  | p0 :: tl =>
      h <- Py.int p0 ;;
      match tl with
      | [] => Raise IndexError
      | p1 :: tl' =>
          m <- Py.int p1 ;;
          s <- match tl' with
               | p2 :: _ => Py.int p2
               | [] => Ok 0
               end ;;
          datetime_time h m s
      end
  end.

(** ** Storage rows and the attendance window *)

(** The embedded [sections(course_id, name)] of a schedule row. *)
Record section_ref : Type := {
  sec_course_id : string;
  sec_name : string
}.

(** A row of [section_schedules] as the query selects it.  The embedded
    section is [None] when the relation is null. *)
Record schedule : Type := {
  s_section_id : string;
  s_day_of_week : string;
  s_start_time : string;
  s_end_time : string;
  s_sections : option section_ref
}.

(** The dict stored in [current_attendance_window]. *)
Record window : Type := {
  section_id : string;
  course_id : string;
  section_name : string;
  start_time : string;
  end_time : string;
  is_late : bool;
  window_start : string;
  late_cutoff : string;
  window_end : string;
  status : string
}.

(** [f"{m // 60:02d}:{m % 60:02d}"] *)
Definition fmt_minutes (m : Z) : string :=
  Py.fmt02d (m / 60) +:+ ":" +:+ Py.fmt02d (m mod 60).

(** [schedule["sections"]["course_id"]]: subscripting a null relation
    raises. *)
Definition sections_of (sch : schedule) : result section_ref :=
  match s_sections sch with
  | Some r => Ok r
  | None => Raise TypeError
  end.

(** The [for schedule in query.data] loop of
    [get_current_attendance_window]: the first row whose window holds
    [current_minutes] yields the window dict; [None] when the loop runs
    out.  Rows are parsed as they are met, so a malformed row raises
    before any later row is looked at. *)
Fixpoint scan_schedules (current_minutes : Z) (data : list schedule)
  : result (option window) :=
  match data with
  | [] => Ok None
  | sch :: rest =>
      start_t <- parse_time_string (s_start_time sch) ;;
      end_t <- parse_time_string (s_end_time sch) ;;
      let start_minutes := time_to_minutes start_t in
      let end_minutes := time_to_minutes end_t in
      let window_start := start_minutes - CONFIG.EARLY_WINDOW_MINUTES in
      let late_cutoff := start_minutes + CONFIG.LATE_GRACE_MINUTES in
      let window_end := end_minutes - CONFIG.END_BUFFER_MINUTES in
      if (window_start <=? current_minutes) && (current_minutes <=? window_end)
      then
        let is_late := late_cutoff <? current_minutes in
        sec <- sections_of sch ;;
        Ok (Some {| section_id := s_section_id sch;
                    course_id := sec_course_id sec;
                    section_name := sec_name sec;
                    start_time := s_start_time sch;
                    end_time := s_end_time sch;
                    is_late := is_late;
                    window_start := fmt_minutes window_start;
                    late_cutoff := fmt_minutes late_cutoff;
                    window_end := fmt_minutes window_end;
                    status := if is_late then "late" else "present" |})
      else scan_schedules current_minutes rest
  end.

(** [.eq("day_of_week", current_day)] *)
Definition on_day (current_day : string) (r : schedule) : bool :=
  String.eqb (s_day_of_week r) current_day.

Definition schedules_of_day (current_day : string) (rows : list schedule)
  : list schedule :=
  List.filter (on_day current_day) rows.

(** The schedule window resolver: what lines 154-207 compute from the
    wall clock ([current_day], [current_time]) and the stored schedule
    rows, before the result is published in the cache. *)
Definition resolve (current_day : string) (current_time : time)
    (rows : list schedule) : result (option window) :=
  let current_minutes := time_to_minutes current_time in
  scan_schedules current_minutes (schedules_of_day current_day rows).

(** ** Storage *)

Record student_row : Type := {
  st_id : string;
  st_matric_no : string;
  st_nickname : string
}.

(** What [select("id, nickname")] returns for a student. *)
Record student : Type := {
  id : string;
  nickname : string
}.

Record enrollment : Type := {
  en_id : string;
  en_student_id : string;
  en_section_id : string
}.

Record class_session : Type := {
  cs_id : string;
  cs_section_id : string;
  cs_class_date : string;
  cs_start_time : string;
  cs_status : string
}.

Record attendance_record : Type := {
  ar_id : string;
  ar_student_id : string;
  ar_class_session_id : string;
  ar_status : string;
  ar_timestamp : string
}.

Record course_attendance : Type := {
  ca_student_id : string;
  ca_course_id : string;
  ca_absence_count : Z
}.

(** The tables the server reads and writes, each in storage order. *)
Record database : Type := {
  section_schedules : list schedule;
  students : list student_row;
  student_section_enrollments : list enrollment;
  class_sessions : list class_session;
  attendance_records : list attendance_record;
  student_course_attendance : list course_attendance
}.

Definition insert_class_session (r : class_session) (d : database) : database :=
  {| section_schedules := section_schedules d;
     students := students d;
     student_section_enrollments := student_section_enrollments d;
     class_sessions := class_sessions d ++ [r];
     attendance_records := attendance_records d;
     student_course_attendance := student_course_attendance d |}.

Definition insert_attendance_record (r : attendance_record) (d : database) : database :=
  {| section_schedules := section_schedules d;
     students := students d;
     student_section_enrollments := student_section_enrollments d;
     class_sessions := class_sessions d;
     attendance_records := attendance_records d ++ [r];
     student_course_attendance := student_course_attendance d |}.

Definition insert_course_attendance (r : course_attendance) (d : database) : database :=
  {| section_schedules := section_schedules d;
     students := students d;
     student_section_enrollments := student_section_enrollments d;
     class_sessions := class_sessions d;
     attendance_records := attendance_records d;
     student_course_attendance := student_course_attendance d ++ [r] |}.

(** One storage call, as it shows in the log of calls. *)
Inductive op : Type := Select | Insert.

Record event : Type := {
  ev_op : op;
  ev_table : string;
  ev_ok : bool
}.

(** ** Global state *)

(** The module's globals, the storage behind the client, the faults the
    coming storage calls will meet ([true]: the call raises; an exhausted
    schedule means no more faults) and the log of storage calls made. *)
Record world : Type := {
  supabase : bool;                       (* the client is not None *)
  db : database;
  faults : list bool;
  trace : list event;
  current_attendance_window : option window;
  last_window_check : Z;                 (* microseconds *)
  attendance_logged_today : gmap string (gset string);
  student_cache : list (string * option student)   (* lru_cache, newest first *)
}.

Definition set_db (d : database) (w : world) : world :=
  {| supabase := supabase w; db := d; faults := faults w; trace := trace w;
     current_attendance_window := current_attendance_window w;
     last_window_check := last_window_check w;
     attendance_logged_today := attendance_logged_today w;
     student_cache := student_cache w |}.

Definition set_call (fs : list bool) (e : event) (w : world) : world :=
  {| supabase := supabase w; db := db w; faults := fs; trace := trace w ++ [e];
     current_attendance_window := current_attendance_window w;
     last_window_check := last_window_check w;
     attendance_logged_today := attendance_logged_today w;
     student_cache := student_cache w |}.

Definition set_current_attendance_window (cw : option window) (w : world) : world :=
  {| supabase := supabase w; db := db w; faults := faults w; trace := trace w;
     current_attendance_window := cw;
     last_window_check := last_window_check w;
     attendance_logged_today := attendance_logged_today w;
     student_cache := student_cache w |}.

Definition set_last_window_check (t : Z) (w : world) : world :=
  {| supabase := supabase w; db := db w; faults := faults w; trace := trace w;
     current_attendance_window := current_attendance_window w;
     last_window_check := t;
     attendance_logged_today := attendance_logged_today w;
     student_cache := student_cache w |}.

Definition set_attendance_logged_today (m : gmap string (gset string)) (w : world) : world :=
  {| supabase := supabase w; db := db w; faults := faults w; trace := trace w;
     current_attendance_window := current_attendance_window w;
     last_window_check := last_window_check w;
     attendance_logged_today := m;
     student_cache := student_cache w |}.

Definition set_student_cache (c : list (string * option student)) (w : world) : world :=
  {| supabase := supabase w; db := db w; faults := faults w; trace := trace w;
     current_attendance_window := current_attendance_window w;
     last_window_check := last_window_check w;
     attendance_logged_today := attendance_logged_today w;
     student_cache := c |}.

(** What one call reads from the clocks of the host. *)
Record clock : Type := {
  time_time : Z;          (* time.time(), in microseconds *)
  weekday : string;       (* datetime.now().strftime("%A") *)
  now_time : time;        (* datetime.now().time() *)
  now_time_iso : string;  (* datetime.now().time().isoformat() *)
  today : string;         (* datetime.date.today().isoformat() *)
  utc_date : string;      (* datetime.utcnow().date().isoformat() *)
  utc_iso : string        (* datetime.utcnow().isoformat() *)
}.

(** ** Stateful code that may raise *)

Definition M (A : Type) : Type := world -> result A * world.

Definition ret {A} (a : A) : M A := fun w => (Ok a, w).

Definition bind {A B} (c : M A) (k : A -> M B) : M B :=
  fun w =>
    match c w with
    | (Ok a, w') => k a w'
    | (Raise e, w') => (Raise e, w')
    end.

(** A call of a function that handles its own exceptions. *)
Definition call {A} (f : world -> A * world) : M A :=
  fun w => let '(a, w') := f w in (Ok a, w').

(** [try: body  except Exception: handler], for a body and a handler
    that both end in [return]. *)
Definition try_except {A} (body : M A) (handler : exn -> world -> A * world)
  : world -> A * world :=
  fun w =>
    match body w with
    | (Ok a, w') => (a, w')
    | (Raise e, w') => handler e w'
    end.

Notation "x <-- c ;; k" := (bind c (fun x => k))
  (at level 100, c at next level, right associativity, only parsing).

(** [.execute()]: the call is logged; it raises when the fault schedule
    says so, and then has no effect on the stored rows. *)
Definition execute (o : op) (table : string) : M unit :=
  fun w =>
    let failed := hd false (faults w) in
    let w' := set_call (tl (faults w))
                {| ev_op := o; ev_table := table; ev_ok := negb failed |} w in
    if failed then (Raise StorageError, w') else (Ok tt, w').

(** [supabase.table(t).select(..).eq(..)...execute().data] *)
Definition select {R} (table : string) (rows : database -> list R)
    (p : R -> bool) : M (list R) :=
  _ <-- execute Select table ;;
  fun w => (Ok (List.filter p (rows (db w))), w).

(** [supabase.table(t).insert(row).execute()] *)
Definition insert (table : string) (ins : database -> database) : M unit :=
  _ <-- execute Insert table ;;
  fun w => (Ok tt, set_db (ins (db w)) w).

(** ** Automatic attendance window *)

(** The body of the [try] in [get_current_attendance_window]. *)
Definition window_detection (clk : clock) : M (option window) :=
  let current_day := weekday clk in
  let current_time := now_time clk in
  let current_minutes := time_to_minutes current_time in
  data <-- select "section_schedules" section_schedules (on_day current_day) ;;
  match data with
  | [] =>
      fun w => (Ok None, set_current_attendance_window None w)
  | _ =>
      fun w =>
        match scan_schedules current_minutes data with
        | Ok (Some win) =>
            (Ok (Some win), set_current_attendance_window (Some win) w)
        | Ok None => (Ok None, set_current_attendance_window None w)
        | Raise e => (Raise e, w)
        end
  end.

(** Detect if we're currently in an attendance window based on
    section_schedules.  Returns window info with present/late status, or
    None if no active window. *)
Definition get_current_attendance_window (clk : clock)
  : world -> option window * world :=
  fun w =>
    let now := time_time clk in
    if now - last_window_check w <? CONFIG.WINDOW_CHECK_INTERVAL * 1000000
    then (current_attendance_window w, w)
    else
      let w := set_last_window_check now w in
      if negb (supabase w)
      then (None, set_current_attendance_window None w)
      else
        try_except (window_detection clk)
          (fun _ w' => (None, set_current_attendance_window None w')) w.

(** ** Attendance writer *)

(** The body of [get_student_cached], without the cache. *)
Definition student_lookup (matric_no : string) : world -> option student * world :=
  fun w =>
    if negb (supabase w) then (None, w)
    else
      try_except
        (resp <-- select "students" students
                    (fun r => String.eqb (st_matric_no r) matric_no) ;;
         match resp with
         | r :: _ => ret (Some {| id := st_id r; nickname := st_nickname r |})
         | [] => ret None
         end)
        (fun _ w' => (None, w')) w.

(** The entries of an [lru_cache], newest first. *)
Fixpoint cache_find (k : string) (c : list (string * option student))
  : option (option student) :=
  match c with
  | [] => None
  | (k', v) :: c' => if String.eqb k' k then Some v else cache_find k c'
  end.

Fixpoint cache_remove (k : string) (c : list (string * option student))
  : list (string * option student) :=
  match c with
  | [] => []
  | (k', v) :: c' => if String.eqb k' k then c' else (k', v) :: cache_remove k c'
  end.

Definition LRU_MAXSIZE : nat := 500.

(** [@lru_cache(maxsize=500)]: a hit returns the stored result (a stored
    [None] included) and makes the entry the newest; a miss runs the
    function, stores the result and drops the oldest entry when full. *)
Definition get_student_cached (matric_no : string)
  : world -> option student * world :=
  fun w =>
    match cache_find matric_no (student_cache w) with
    | Some v =>
        (v, set_student_cache
              ((matric_no, v) :: cache_remove matric_no (student_cache w)) w)
    | None =>
        let '(v, w') := student_lookup matric_no w in
        (v, set_student_cache
              (firstn LRU_MAXSIZE ((matric_no, v) :: student_cache w')) w')
    end.

(** Find or create today's class session.  [None] is Python's [None]. *)
Definition get_or_create_class_session (clk : clock) (section_id : string)
    (start_time_str : string) : world -> option string * world :=
  fun w =>
    if negb (supabase w) then (None, w)
    else
      let today := today clk in
      try_except
        (res <-- select "class_sessions" class_sessions
                   (fun r => String.eqb (cs_section_id r) section_id
                             && String.eqb (cs_class_date r) today) ;;
         match res with
         | r :: _ => ret (Some (cs_id r))
         | [] =>
             let session_id := "session_" +:+ section_id +:+ "_" +:+ today in
             _ <-- insert "class_sessions"
                     (insert_class_session
                        {| cs_id := session_id;
                           cs_section_id := section_id;
                           cs_class_date := today;
                           cs_start_time :=
                             if Py.truthy start_time_str then start_time_str
                             else now_time_iso clk;
                           cs_status := "active" |}) ;;
             ret (Some session_id)
         end)
        (fun _ w' => (None, w')) w.

(** The [return] statement a call of [log_attendance] leaves by. *)
Inductive outcome : Type :=
| Inactive           (* line 297: no window, or no storage client *)
| AlreadyLogged      (* line 306: in the in-memory set *)
| UnknownStudent     (* line 311 *)
| NotEnrolled        (* line 326 *)
| NoSession          (* line 331 *)
| AlreadyInStorage   (* line 347: a stored record exists *)
| Written            (* line 382 *)
| Failed.            (* line 386: the except branch *)

(** The Boolean the call returns. *)
Definition returned (o : outcome) : bool :=
  match o with
  | Written => true
  | _ => false
  end.

(** The set kept for a section ([attendance_logged_today[section_id]]). *)
Definition logged_set (w : world) (section_id : string) : gset string :=
  default ∅ (attendance_logged_today w !! section_id).

(** [if section_id not in attendance_logged_today:
        attendance_logged_today[section_id] = set()] *)
Definition ensure_logged_set (section_id : string) (w : world) : world :=
  match attendance_logged_today w !! section_id with
  | Some _ => w
  | None =>
      set_attendance_logged_today
        (<[section_id := ∅]> (attendance_logged_today w)) w
  end.

(** [attendance_logged_today[section_id].add(student_matric)] *)
Definition mark_logged (section_id student_matric : string) : M unit :=
  fun w =>
    (Ok tt,
     set_attendance_logged_today
       (<[section_id := {[student_matric]} ∪ logged_set w section_id]>
          (attendance_logged_today w)) w).

(** The body of the [try] in [log_attendance]. *)
Definition log_attendance_body (clk : clock) (win : window)
    (student_matric : string) : M outcome :=
  let section_id := section_id win in
  student <-- call (get_student_cached student_matric) ;;
  match student with
  | None => ret UnknownStudent
  | Some student =>
      let student_id := id student in
      let course_id := course_id win in
      enroll_check <--
        select "student_section_enrollments" student_section_enrollments
          (fun r => String.eqb (en_student_id r) student_id
                    && String.eqb (en_section_id r) section_id) ;;
      match firstn 1 enroll_check with
      | [] => ret NotEnrolled
      | _ :: _ =>
          class_session_id <--
            call (get_or_create_class_session clk section_id (start_time win)) ;;
          match class_session_id with
          | None => ret NoSession
          | Some class_session_id =>
              if negb (Py.truthy class_session_id) then ret NoSession
              else
                let today_date := utc_date clk in
                existing <--
                  select "attendance_records" attendance_records
                    (fun r => String.eqb (ar_student_id r) student_id
                              && String.eqb (ar_class_session_id r) class_session_id) ;;
                match firstn 1 existing with
                | _ :: _ =>
                    _ <-- mark_logged section_id student_matric ;;
                    ret AlreadyInStorage
                | [] =>
                    let attendance_status := status win in
                    _ <-- insert "attendance_records"
                            (insert_attendance_record
                               {| ar_id := "att_" +:+ student_id +:+ "_"
                                           +:+ class_session_id +:+ "_" +:+ today_date;
                                  ar_student_id := student_id;
                                  ar_class_session_id := class_session_id;
                                  ar_status := attendance_status;
                                  ar_timestamp := utc_iso clk |}) ;;
                    course_attendance_res <--
                      select "student_course_attendance" student_course_attendance
                        (fun r => String.eqb (ca_student_id r) student_id
                                  && String.eqb (ca_course_id r) course_id) ;;
                    _ <-- match firstn 1 course_attendance_res with
                          | [] =>
                              insert "student_course_attendance"
                                (insert_course_attendance
                                   {| ca_student_id := student_id;
                                      ca_course_id := course_id;
                                      ca_absence_count := 0 |})
                          | _ :: _ => ret tt
                          end ;;
                    _ <-- mark_logged section_id student_matric ;;
                    ret Written
                end
          end
      end
  end.

(** Insert attendance record with automatic present/late detection. *)
Definition log_attendance (clk : clock) (student_matric : string)
  : world -> outcome * world :=
  fun w =>
    match current_attendance_window w with
    | None => (Inactive, w)
    | Some win =>
        if negb (supabase w) then (Inactive, w)
        else
          let section_id := section_id win in
          let w := ensure_logged_set section_id w in
          if decide (student_matric ∈ logged_set w section_id)
          then (AlreadyLogged, w)
          else
            try_except (log_attendance_body clk win student_matric)
              (fun _ w' => (Failed, w')) w
    end.

(** ** Bounded dispatch queue *)

Module Dispatch.
Section Queue.

(** A frame is an opaque image buffer. *)
Variable frame : Type.

(** [face_queue]: the items waiting, oldest first. *)
Definition queue : Type := list frame.

Definition qsize (q : queue) : Z := Z.of_nat (length q).

(** [Queue.full()]: [0 < maxsize <= qsize()] *)
Definition full (q : queue) : bool :=
  (0 <? CONFIG.FACE_QUEUE_MAXSIZE) && (CONFIG.FACE_QUEUE_MAXSIZE <=? qsize q).

(** [Queue.put_nowait(item)]: raises [queue.Full] instead of waiting. *)
Definition put_nowait (q : queue) (item : frame) : result queue :=
  if (0 <? CONFIG.FACE_QUEUE_MAXSIZE) && (CONFIG.FACE_QUEUE_MAXSIZE <=? qsize q)
  then Raise QueueFull
  else Ok (q ++ [item])%list.

(** Lines 473-477 of [generate_frames].  Other threads may touch the
    queue between [full()] and [put_nowait()], so the two calls see the
    queue as it is at their own time: [q_check] and [q_put].  The
    Boolean tells whether the frame went in (the code keeps no such
    flag; a frame that did not go in is dropped). *)
Definition try_enqueue_at (q_check q_put : queue) (f : frame) : bool * queue :=
  if negb (full q_check) then
    match put_nowait q_put f with
    | Ok q' => (true, q')
    | Raise _ => (false, q_put)     (* except queue.Full: pass *)
    end
  else (false, q_put).

(** The same with no other thread in between. *)
Definition try_enqueue (q : queue) (f : frame) : bool * queue :=
  try_enqueue_at q q f.

End Queue.
End Dispatch.

(** ** Camera capture with reconnection *)

Module Camera.
Section Capture.

Variable frame : Type.

(** How the inner read loop of one connection ends. *)
Inductive ending : Type :=
| ReadFailed     (* camera.read() returned success = False: break *)
| ReadRaised     (* camera.read() raised *)
| ShutdownSet.   (* shutdown_event was set *)

(** What happens during one pass of the outer loop: what the device
    does, or a shutdown request that arrives before the device is
    tried again. *)
Inductive attempt : Type :=
| OpenRaised                                  (* VideoCapture/set raised *)
| NotOpened                                   (* isOpened() is False *)
| Opened (frames : list frame) (e : ending)   (* frames read, then [e] *)
| ShutdownSignal.                             (* shutdown_event.set() *)

Record state : Type := {
  retry_count : Z;
  latest_frame : option frame;
  shutdown : bool
}.

(** [latest_frame = frame], for each frame read. *)
Definition publish (frames : list frame) (latest : option frame) : option frame :=
  match last frames with
  | Some f => Some f
  | None => latest
  end.

(** One pass of the body of the outer [while]. *)
Definition attempt_step (a : attempt) (s : state) : state :=
  match a with
  | OpenRaised =>
      {| retry_count := retry_count s + 1;
         latest_frame := latest_frame s; shutdown := shutdown s |}
  | NotOpened =>
      {| retry_count := retry_count s + 1;
         latest_frame := latest_frame s; shutdown := shutdown s |}
  | Opened frames e =>
      (* print("[OK] Camera started."); retry_count = 0 *)
      let retry_count := 0 in
      match e with
      | ReadFailed =>
          {| retry_count := retry_count;
             latest_frame := publish frames (latest_frame s);
             shutdown := shutdown s |}
      | ReadRaised =>
          {| retry_count := retry_count + 1;
             latest_frame := publish frames (latest_frame s);
             shutdown := shutdown s |}
      | ShutdownSet =>
          {| retry_count := retry_count;
             latest_frame := publish frames (latest_frame s);
             shutdown := true |}
      end
  | ShutdownSignal =>
      {| retry_count := retry_count s;
         latest_frame := latest_frame s; shutdown := true |}
  end.

(** Where the outer loop stands once the device has gone through the
    given attempts. *)
Inductive status : Type :=
| Retrying (s : state)   (* the loop condition holds: another pass follows *)
| Stopped (s : state).   (* "[WARN] Camera capture stopped" *)

Fixpoint capture_loop (attempts : list attempt) (s : state) : status :=
  if negb (shutdown s) && (retry_count s <? CONFIG.MAX_CAMERA_RETRIES) then
    match attempts with
    | [] => Retrying s
    | a :: rest => capture_loop rest (attempt_step a s)
    end
  else Stopped s.

(** Capture camera frames with reconnection. *)
Definition capture_frames (attempts : list attempt) : status :=
  capture_loop attempts
    {| retry_count := 0; latest_frame := None; shutdown := false |}.

(** A flapping device: it opens, and the first read fails. *)
Definition flap : attempt := Opened [] ReadFailed.

End Capture.
End Camera.

(** ** Predicates used in the statements *)

(** The window test of the loop, as a predicate on a row: both times
    parse and [start - 15 <= current_minutes <= end - 15], in minutes. *)
Definition minute_window_open (current_minutes : Z) (sch : schedule) : bool :=
  match parse_time_string (s_start_time sch), parse_time_string (s_end_time sch) with
  | Ok st, Ok en =>
      (time_to_minutes st - CONFIG.EARLY_WINDOW_MINUTES <=? current_minutes)
      && (current_minutes <=? time_to_minutes en - CONFIG.END_BUFFER_MINUTES)
  | _, _ => false
  end.

(** A row the loop can process without raising. *)
Definition well_formed (sch : schedule) : bool :=
  match parse_time_string (s_start_time sch), parse_time_string (s_end_time sch),
        s_sections sch with
  | Ok _, Ok _, Some _ => true
  | _, _, _ => false
  end.

(** The window dict carries the identity of the row it was made from. *)
Definition window_of_row (w : window) (sch : schedule) : Prop :=
  section_id w = s_section_id sch /\
  start_time w = s_start_time sch /\
  end_time w = s_end_time sch /\
  exists sec, s_sections sch = Some sec /\
              course_id w = sec_course_id sec /\ section_name w = sec_name sec.

(** An instant of the day, in seconds since midnight. *)
Definition seconds_of (t : time) : Z :=
  hour t * 3600 + minute t * 60 + second t.

(** The interval as the specification words it, on instants:
    [start - EARLY <= now <= end - BUFFER]. *)
Definition spec_window_open (now start_t end_t : time) : bool :=
  (seconds_of start_t - CONFIG.EARLY_WINDOW_MINUTES * 60 <=? seconds_of now)
  && (seconds_of now <=? seconds_of end_t - CONFIG.END_BUFFER_MINUTES * 60).

(** Lateness as the specification words it, on instants:
    [now > start + LATE_GRACE]. *)
Definition spec_is_late (now start_t : time) : bool :=
  seconds_of start_t + CONFIG.LATE_GRACE_MINUTES * 60 <? seconds_of now.

(** What a resolver result says: the section and the status of the window,
    if there is one. *)
Definition resolved_section (r : result (option window)) : option string :=
  match r with
  | Ok (Some w) => Some (section_id w)
  | _ => None
  end.

Definition resolved_status (r : result (option window)) : option string :=
  match r with
  | Ok (Some w) => Some (status w)
  | _ => None
  end.

(** The student a lookup of [matric_no] yields when storage answers:
    the cached result if there is one, else the first stored row. *)
Definition known_student (w : world) (matric_no : string) : option student :=
  match cache_find matric_no (student_cache w) with
  | Some v => v
  | None =>
      match List.filter (fun r => String.eqb (st_matric_no r) matric_no)
              (students (db w)) with
      | r :: _ => Some {| id := st_id r; nickname := st_nickname r |}
      | [] => None
      end
  end.

(** Some enrollment row ties the student to the section. *)
Definition enrolled (d : database) (student_id section_id : string) : bool :=
  existsb (fun r => String.eqb (en_student_id r) student_id
                    && String.eqb (en_section_id r) section_id)
    (student_section_enrollments d).

(** The stored attendance records of a student in a class session. *)
Definition records_of (d : database) (student_id class_session_id : string)
  : list attendance_record :=
  List.filter (fun r => String.eqb (ar_student_id r) student_id
                        && String.eqb (ar_class_session_id r) class_session_id)
    (attendance_records d).

(** The identifier of today's session of a section: the stored session
    if there is one, else the one the writer would create. *)
Definition session_id_for (clk : clock) (d : database) (section_id : string)
  : string :=
  match List.filter (fun r => String.eqb (cs_section_id r) section_id
                              && String.eqb (cs_class_date r) (today clk))
          (class_sessions d) with
  | r :: _ => cs_id r
  | [] => "session_" +:+ section_id +:+ "_" +:+ today clk
  end.

(** What a helper leaves alone: the globals other than the cache of
    student lookups. *)
Record same_globals (w w' : world) : Prop := {
  sg_supabase : supabase w' = supabase w;
  sg_window : current_attendance_window w' = current_attendance_window w;
  sg_last : last_window_check w' = last_window_check w;
  sg_logged : attendance_logged_today w' = attendance_logged_today w
}.

(** The same for a step that only touches the sets of logged students:
    storage, the fault schedule, the log and the caches stay. *)
Record same_globals_but_logged (w w' : world) : Prop := {
  sl_supabase : supabase w' = supabase w;
  sl_db : db w' = db w;
  sl_faults : faults w' = faults w;
  sl_trace : trace w' = trace w;
  sl_window : current_attendance_window w' = current_attendance_window w;
  sl_last : last_window_check w' = last_window_check w;
  sl_cache : student_cache w' = student_cache w
}.

(** The storage calls a step adds to the log. *)
Definition calls_added (w w' : world) (evs : list event) : Prop :=
  trace w' = (trace w ++ evs)%list.

(** ** Sample data *)

(** Monday 09:00-10:30, the scenario of the specification. *)
Definition ex_row : schedule :=
  {| s_section_id := "SEC1"; s_day_of_week := "Monday";
     s_start_time := "09:00:00"; s_end_time := "10:30:00";
     s_sections := Some {| sec_course_id := "CSC1"; sec_name := "Section 1" |} |}.

(** A second section the same morning, overlapping the first. *)
Definition ex_row2 : schedule :=
  {| s_section_id := "SEC2"; s_day_of_week := "Monday";
     s_start_time := "09:30:00"; s_end_time := "11:00:00";
     s_sections := Some {| sec_course_id := "CSC2"; sec_name := "Section 2" |} |}.

(** The window of the first section as it stands at 09:00. *)
Definition ex_window : window :=
  {| section_id := "SEC1"; course_id := "CSC1"; section_name := "Section 1";
     start_time := "09:00:00"; end_time := "10:30:00"; is_late := false;
     window_start := "08:45"; late_cutoff := "09:15"; window_end := "10:15";
     status := "present" |}.

(** The same section meets again on Tuesday. *)
Definition ex_row_tue : schedule :=
  {| s_section_id := "SEC1"; s_day_of_week := "Tuesday";
     s_start_time := "09:00:00"; s_end_time := "10:30:00";
     s_sections := Some {| sec_course_id := "CSC1"; sec_name := "Section 1" |} |}.

(** Two students; only the first is enrolled in SEC1. *)
Definition ex_db : database :=
  {| section_schedules := [ex_row; ex_row_tue];
     students :=
       [ {| st_id := "S1"; st_matric_no := "2211001"; st_nickname := "Ali" |};
         {| st_id := "S2"; st_matric_no := "2211002"; st_nickname := "Siti" |} ];
     student_section_enrollments :=
       [ {| en_id := "E1"; en_student_id := "S1"; en_section_id := "SEC1" |} ];
     class_sessions := [];
     attendance_records := [];
     student_course_attendance := [] |}.

(** A server that has just started. *)
Definition ex_world : world :=
  {| supabase := true; db := ex_db; faults := []; trace := [];
     current_attendance_window := None; last_window_check := 0;
     attendance_logged_today := ∅; student_cache := [] |}.

(** Monday 6 January 2025 at 09:00, and the next day at the same time. *)
Definition ex_monday : clock :=
  {| time_time := 1736125200000000; weekday := "Monday";
     now_time := mk_time 9 0 0; now_time_iso := "09:00:00";
     today := "2025-01-06"; utc_date := "2025-01-06";
     utc_iso := "2025-01-06T01:00:00" |}.

Definition ex_tuesday : clock :=
  {| time_time := 1736211600000000; weekday := "Tuesday";
     now_time := mk_time 9 0 0; now_time_iso := "09:00:00";
     today := "2025-01-07"; utc_date := "2025-01-07";
     utc_iso := "2025-01-07T01:00:00" |}.

(** The server with the Monday window in its cache. *)
Definition ex_world_open : world :=
  set_current_attendance_window (Some ex_window) ex_world.

(** The same, with a schedule source that cannot be reached. *)
Definition ex_world_unreachable : world :=
  {| supabase := true; db := ex_db; faults := [true]; trace := [];
     current_attendance_window := Some ex_window; last_window_check := 0;
     attendance_logged_today := ∅; student_cache := [] |}.

(** Storage answers five calls and fails the sixth, the insert of the
    attendance record of a first-time student. *)
Definition ex_world_insert_fails : world :=
  {| supabase := true; db := ex_db;
     faults := [false; false; false; false; false; true]; trace := [];
     current_attendance_window := Some ex_window; last_window_check := 0;
     attendance_logged_today := ∅; student_cache := [] |}.

(** The server over two days: the Monday window opens and the student
    is logged; on Tuesday the window of the same section opens again and
    the student is seen again. *)
Definition ex_monday_logged : world :=
  snd (log_attendance ex_monday "2211001"
         (snd (get_current_attendance_window ex_monday ex_world))).

Definition ex_tuesday_open : world :=
  snd (get_current_attendance_window ex_tuesday ex_monday_logged).

(** ** Further predicates used in the statements *)

(** How the schedule loop deals with one row at minute [cm]: it passes
    over it (the row parses and its window is closed), or it raises on it. *)
Definition row_skipped (cm : Z) (sch : schedule) : bool :=
  match scan_schedules cm [sch] with
  | Ok None => true
  | _ => false
  end.

Definition row_raises (cm : Z) (sch : schedule) : bool :=
  match scan_schedules cm [sch] with
  | Raise _ => true
  | Ok _ => false
  end.

(** What storage holds for a matric number: the first stored row. *)
Definition stored_student (d : database) (matric_no : string) : option student :=
  match List.filter (fun r => String.eqb (st_matric_no r) matric_no) (students d) with
  | r :: _ => Some {| id := st_id r; nickname := st_nickname r |}
  | [] => None
  end.

(** Storage answers six calls, the insert of the attendance record
    included, and fails the seventh, the select on
    [student_course_attendance]. *)
Definition ex_world_absence_fails : world :=
  {| supabase := true; db := ex_db;
     faults := [false; false; false; false; false; false; true]; trace := [];
     current_attendance_window := Some ex_window; last_window_check := 0;
     attendance_logged_today := ∅; student_cache := [] |}.

(** ** Frame dispatch and the recognition queue *)

(** The test in front of the dispatch (line 472 of [generate_frames]):
    [window and frame_counter % CONFIG["PROCESS_EVERY_N_FRAMES"] == 0].
    [None] stands for the ZeroDivisionError that [%] raises when the
    configured number is zero; [and] does not evaluate it without a
    window. *)
Definition should_process (window : option window) (frame_counter n : Z)
  : option bool :=
  match window with
  | None => Some false
  | Some _ => if n =? 0 then None else Some (frame_counter mod n =? 0)
  end.

(** [face_queue.get(timeout=1)] in the worker: the oldest frame, or
    [None] for [queue.Empty] when none arrived in time. *)
Definition queue_get {frame : Type} (q : Dispatch.queue frame)
  : option (frame * Dispatch.queue frame) :=
  match q with
  | [] => None
  | f :: q' => Some (f, q')
  end.

(** What the producer and the consumer do to the queue, in the order it
    happens. *)
Inductive queue_op (frame : Type) : Type :=
| Put (f : frame)    (* the streaming loop hands a frame over *)
| Get.               (* the worker asks for a frame *)
Arguments Put {frame} f.
Arguments Get {frame}.

Record queue_run (frame : Type) : Type := {
  accepted : list frame;     (* frames that went into the queue *)
  dropped : list frame;      (* frames that found it full *)
  delivered : list frame;    (* frames the worker received *)
  pending : list frame       (* the queue at the end *)
}.
Arguments accepted {frame} q.
Arguments dropped {frame} q.
Arguments delivered {frame} q.
Arguments pending {frame} q.

Fixpoint run_queue {frame : Type} (ops : list (queue_op frame))
    (r : queue_run frame) : queue_run frame :=
  match ops with
  | [] => r
  | Put f :: ops' =>
      let '(went_in, q') := Dispatch.try_enqueue frame (pending r) f in
      run_queue ops'
        {| accepted := if went_in then (accepted r ++ [f])%list else accepted r;
           dropped := if went_in then dropped r else (dropped r ++ [f])%list;
           delivered := delivered r;
           pending := q' |}
  | Get :: ops' =>
      match queue_get (pending r) with
      | Some (f, q') =>
          run_queue ops'
            {| accepted := accepted r; dropped := dropped r;
               delivered := (delivered r ++ [f])%list; pending := q' |}
      | None => run_queue ops' r
      end
  end.

(** ** Known faces: file names, loading and registration *)

(** [c.lower()] on an ASCII letter.  (The characters outside ASCII that
    Python maps to ASCII letters give [i] and [k], which no image
    extension below contains.) *)
Definition lower_char (c : ascii) : ascii :=
  let n := nat_of_ascii c in
  if (Nat.leb 65 n && Nat.leb n 90)%bool then ascii_of_nat (n + 32) else c.

Fixpoint lower (s : string) : string :=
  match s with
  | EmptyString => EmptyString
  | String c s' => String (lower_char c) (lower s')
  end.

(** The parts of [s] before and after its last [c], if it has one. *)
Fixpoint split_last (c : ascii) (s : string) : option (string * string) :=
  match s with
  | EmptyString => None
  | String a s' =>
      match split_last c s' with
      | Some (b, e) => Some (String a b, e)
      | None => if Ascii.eqb a c then Some (EmptyString, s') else None
      end
  end.

Definition ALLOWED_EXTENSIONS : list string := ["png"; "jpg"; "jpeg"].

(** ['.' in filename and
     filename.rsplit('.', 1)[1].lower() in {'png', 'jpg', 'jpeg'}] *)
Definition allowed_file (filename : string) : bool :=
  match split_last "." filename with
  | None => false
  | Some (_, ext) => existsb (String.eqb (lower ext)) ALLOWED_EXTENSIONS
  end.

(** [s.endswith(suffix)] *)
Fixpoint endswith (s suffix : string) : bool :=
  if String.eqb s suffix then true
  else match s with
       | EmptyString => false
       | String _ s' => endswith s' suffix
       end.

(** [filename.lower().endswith((".jpg", ".jpeg", ".png"))], the test of
    [load_faces]. *)
Definition is_image_name (filename : string) : bool :=
  existsb (endswith (lower filename)) [".jpg"; ".jpeg"; ".png"].

Fixpoint all_dots (s : string) : bool :=
  match s with
  | EmptyString => true
  | String c s' => Ascii.eqb c "." && all_dots s'
  end.

(** [os.path.splitext(p)] on a POSIX host: the extension starts at the
    last dot of the last path component, unless only dots precede it
    there. *)
Definition splitext (p : string) : string * string :=
  let '(dir, base) :=
    match split_last "/" p with
    | Some (d, b) => (d +:+ "/", b)
    | None => (EmptyString, p)
    end in
  match split_last "." base with
  | Some (stem, e) =>
      if all_dots stem then (p, EmptyString)
      else (dir +:+ stem, "." +:+ e)
  | None => (p, EmptyString)
  end.

(** [s.strip()] *)
Definition strip (s : string) : string := Py.rstrip (Py.lstrip s).

Section KnownFaces.

(** A face encoding is opaque. *)
Variable encoding : Type.

(** [known_face_encodings] and [known_face_names], indexed alike. *)
Record faces : Type := {
  known_face_encodings : list encoding;
  known_face_names : list string
}.

(** [face_recognition.load_image_file] followed by
    [face_recognition.face_encodings], for a file of the known-faces
    directory: the encodings found, or an exception. *)
Variable face_encodings : string -> result (list encoding).

(** The loop of [load_faces] over the directory listing. *)
Fixpoint load_files (listing : list string) (r : faces) : faces :=
  match listing with
  | [] => r
  | filename :: rest =>
      if is_image_name filename then
        let name := fst (splitext filename) in
        match face_encodings filename with
        | Ok (e :: _) =>
            load_files rest
              {| known_face_encodings := (known_face_encodings r ++ [e])%list;
                 known_face_names := (known_face_names r ++ [name])%list |}
        | Ok [] => load_files rest r
        | Raise _ => load_files rest r      (* except: print, go on *)
        end
      else load_files rest r
  end.

(** Load known face encodings from disk: both lists are cleared first. *)
Definition load_faces (listing : list string) (r : faces) : faces :=
  load_files listing {| known_face_encodings := []; known_face_names := [] |}.

(** What the host does during one upload: whether saving the file
    raises, what encoding the saved image gives, and whether removing
    the file raises. *)
Record upload_io : Type := {
  save_raises : bool;
  uploaded_encodings : result (list encoding);
  remove_raises : bool
}.

(** [upload_image]: the status code of the response and the registry
    after the request.  [file] is the name of the ["image"] part of the
    request, if it has one. *)
Definition upload_image (file : option string) (io : upload_io) (r : faces)
  : Z * faces :=
  match file with
  | None => (400, r)
  | Some filename =>
      if String.eqb filename "" || negb (allowed_file filename) then (400, r)
      else
        let student_name := strip (fst (splitext filename)) in
        if save_raises io then (500, r)
        else
          match uploaded_encodings io with
          | Raise _ => (500, r)
          | Ok [] => if remove_raises io then (500, r) else (400, r)
          | Ok (e :: _) =>
              (200,
               {| known_face_encodings := (known_face_encodings r ++ [e])%list;
                  known_face_names := (known_face_names r ++ [student_name])%list |})
          end
  end.

End KnownFaces.

Arguments known_face_encodings {encoding} f.
Arguments known_face_names {encoding} f.
Arguments save_raises {encoding} u.
Arguments uploaded_encodings {encoding} u.
Arguments remove_raises {encoding} u.

(** ** Recognition worker *)

Section Recognition.

(** Face distances are floating-point numbers; the worker only compares
    them, with [<=] ([compare_faces]) and [<]. *)
Variable dist : Type.
Variable dist_leb dist_ltb : dist -> dist -> bool.

(** [CONFIG["FACE_TOLERANCE"]] *)
Variable tolerance : dist.

(** [np.argmin]: the index of the first smallest value (the distances
    are norms of differences of encodings, none of them NaN). *)
Fixpoint argmin_from (best_i : nat) (best : dist) (i : nat) (l : list dist) : nat :=
  match l with
  | [] => best_i
  | d :: l' =>
      if dist_ltb d best then argmin_from i d (S i) l'
      else argmin_from best_i best (S i) l'
  end.

Definition argmin (l : list dist) : nat :=
  match l with
  | [] => 0%nat
  | d :: l' => argmin_from 0 d 1 l'
  end.

(** The name the worker gives to one face, from the distances of the
    face to the known encodings (lines 413-423):
    [matches = compare_faces(..)], i.e. [distance <= tolerance] for each
    known face, and the name at the best index when it matches and its
    distance is below the tolerance. *)
Definition recognise (known_face_names : list string) (face_distances : list dist)
  : result string :=
  let matches := List.map (fun d => dist_leb d tolerance) face_distances in
  match face_distances with
  | [] => Ok "Unknown"
  | _ :: _ =>
      let best_match_index := argmin face_distances in
      match nth_error matches best_match_index,
            nth_error face_distances best_match_index with
      | Some m, Some d =>
          if m && dist_ltb d tolerance then
            match nth_error known_face_names best_match_index with
            | Some name => Ok name
            | None => Raise IndexError
            end
          else Ok "Unknown"
      | _, _ => Raise IndexError
      end
  end.

(** The loop over the faces of one frame (lines 411-434).  A face comes
    with its distances and with the clock as it stands when its
    attendance is logged.  An exception leaves the loop; what was logged
    before stays. *)
Fixpoint recognise_faces (window : option window) (known_face_names : list string)
    (faces_seen : list (list dist * clock)) (results : list string) (w : world)
  : result (list string) * world :=
  match faces_seen with
  | [] => (Ok results, w)
  | (face_distances, clk) :: rest =>
      match recognise known_face_names face_distances with
      | Raise e => (Raise e, w)
      | Ok name =>
          let w' :=
            if negb (String.eqb name "Unknown") && bool_decide (is_Some window)
            then snd (log_attendance clk name w)
            else w in
          recognise_faces window known_face_names rest (results ++ [name])%list w'
      end
  end.

(** One frame of [face_recognition_worker], from the window check on:
    [detection] is what locating and encoding the faces of the frame
    gives (an exception, or the faces).  The result is the new
    [detected_faces] (names only; the boxes are left out) and the state.
    On an exception [detected_faces] keeps its old value. *)
Definition worker_frame (clk : clock) (known_face_names : list string)
    (detection : result (list (list dist * clock)))
    (detected_faces : list string) (w : world) : list string * world :=
  let '(window, w1) := get_current_attendance_window clk w in
  match detection with
  | Raise _ => (detected_faces, w1)
  | Ok faces_seen =>
      match recognise_faces window known_face_names faces_seen [] w1 with
      | (Ok results, w2) => (results, w2)
      | (Raise _, w2) => (detected_faces, w2)
      end
  end.

End Recognition.

Arguments argmin_from {dist} dist_ltb best_i best i l.
Arguments argmin {dist} dist_ltb l.
Arguments recognise {dist} dist_leb dist_ltb tolerance known_face_names face_distances.
Arguments recognise_faces {dist} dist_leb dist_ltb tolerance window known_face_names
  faces_seen results w.
Arguments worker_frame {dist} dist_leb dist_ltb tolerance clk known_face_names
  detection detected_faces w.

(** ** Video stream *)

(** [c.upper()] on an ASCII letter. *)
Definition upper_char (c : ascii) : ascii :=
  let n := nat_of_ascii c in
  if (Nat.leb 97 n && Nat.leb n 122)%bool then ascii_of_nat (n - 32) else c.

Fixpoint upper (s : string) : string :=
  match s with
  | EmptyString => EmptyString
  | String c s' => String (upper_char c) (upper s')
  end.

(** The names drawn next to the detected faces (lines 488-500): the
    nickname of the student when the lookup finds one, else the name
    itself.  Each name other than "Unknown" costs a student lookup. *)
Fixpoint display_names (detected_faces : list string) (w : world)
  : list string * world :=
  match detected_faces with
  | [] => ([], w)
  | name :: rest =>
      let '(student, w1) :=
        if negb (String.eqb name "Unknown") then get_student_cached name w
        else (None, w) in
      let display_name :=
        match student with
        | Some s => nickname s
        | None => name
        end in
      let '(names, w2) := display_names rest w1 in
      (display_name :: names, w2)
  end.

Section Stream.

Variable frame : Type.

(** The streaming loop's own state. *)
Record stream : Type := {
  frame_counter : Z;
  face_queue : Dispatch.queue frame
}.

(** What the rest of the process shows the loop during one pass. *)
Record stream_input : Type := {
  latest_frame : option frame;      (* published by the camera loop *)
  is_streaming : bool;              (* cleared by /api/pause-stream *)
  detected_faces : list string      (* names left by the worker *)
}.

(** What one pass of the loop hands to the client (when encoding
    succeeds). *)
Inductive shown : Type :=
| Raw (f : frame)
| Annotated (f : frame) (status_text : string) (names : list string).

Inductive pass : Type :=
| Waiting                 (* no frame yet: sleep and try again *)
| Yielded (s : shown)
| Crashed.                (* ZeroDivisionError leaves the generator *)

(** One pass of the [while] of [generate_frames]; [n] is
    [CONFIG["PROCESS_EVERY_N_FRAMES"]]. *)
Definition stream_pass (clk : clock) (n : Z) (i : stream_input) (st : stream)
    (w : world) : pass * stream * world :=
  match latest_frame i with
  | None => (Waiting, st, w)
  | Some f =>
      let '(window, w1) := get_current_attendance_window clk w in
      if negb (is_streaming i) then (Yielded (Raw f), st, w1)
      else
        let frame_counter := frame_counter st + 1 in
        match should_process window frame_counter n with
        | None =>
            (Crashed,
             {| frame_counter := frame_counter; face_queue := face_queue st |}, w1)
        | Some go =>
            let q := if go then snd (Dispatch.try_enqueue frame (face_queue st) f)
                     else face_queue st in
            let status_text :=
              match window with
              | Some win =>
                  "Recording: " +:+ section_name win +:+ " | " +:+ upper (status win)
              | None => "No active class"
              end in
            let '(names, w2) := display_names (detected_faces i) w1 in
            (Yielded (Annotated f status_text names),
             {| frame_counter := frame_counter; face_queue := q |}, w2)
        end
  end.

End Stream.

Arguments frame_counter {frame} s.
Arguments face_queue {frame} s.
Arguments latest_frame {frame} s.
Arguments is_streaming {frame} s.
Arguments detected_faces {frame} s.
Arguments stream_pass {frame} clk n i st w.

(** ** Predicates on the registry and on a frame *)

(** The two lists of the registry have one entry per known face. *)
Definition aligned {encoding : Type} (r : faces encoding) : Prop :=
  length (known_face_encodings r) = length (known_face_names r).

(** The registry after a series of uploads. *)
Definition after_uploads {encoding : Type}
    (uploads : list (option string * upload_io encoding)) (r : faces encoding)
  : faces encoding :=
  fold_left (fun r u => snd (upload_image encoding (fst u) (snd u) r)) uploads r.

(** The worker gives the face the name of a known face. *)
Definition recognised {dist : Type} (dist_leb dist_ltb : dist -> dist -> bool)
    (tolerance : dist) (known_face_names : list string)
    (face : list dist * clock) : bool :=
  match recognise dist_leb dist_ltb tolerance known_face_names (fst face) with
  | Ok name => negb (String.eqb name "Unknown")
  | Raise _ => false
  end.

(** * Properties *)

(** ** Schedule window resolver *)

Lemma scan_schedules_some cm data w :
  scan_schedules cm data = Ok (Some w) ->
  exists before sch after st en,
    data = (before ++ sch :: after)%list /\
    Forall (fun e => minute_window_open cm e = false) before /\
    minute_window_open cm sch = true /\
    parse_time_string (s_start_time sch) = Ok st /\
    parse_time_string (s_end_time sch) = Ok en /\
    window_of_row w sch /\
    is_late w = (time_to_minutes st + CONFIG.LATE_GRACE_MINUTES <? cm) /\
    status w = (if is_late w then "late" else "present").
Proof.
  revert w. induction data as [|sch rest IH]; intros w H; simpl in H.
  - discriminate.
  - destruct (parse_time_string (s_start_time sch)) as [st|] eqn:Hst;
      simpl in H; [|discriminate].
    destruct (parse_time_string (s_end_time sch)) as [en|] eqn:Hen;
      simpl in H; [|discriminate].
    destruct ((time_to_minutes st - CONFIG.EARLY_WINDOW_MINUTES <=? cm)
              && (cm <=? time_to_minutes en - CONFIG.END_BUFFER_MINUTES)) eqn:Hin.
    + unfold sections_of in H.
      destruct (s_sections sch) as [sec|] eqn:Hsec; simpl in H; [|discriminate].
      injection H as <-.
      exists [], sch, rest, st, en. simpl.
      repeat split; auto.
      * unfold minute_window_open. now rewrite Hst, Hen.
      * exists sec. auto.
    + destruct (IH w H) as (before & e & after & st' & en' & -> & Hb & Ho & Hrest).
      exists (sch :: before), e, after, st', en'.
      split; [reflexivity|]. split; [|split; [exact Ho|exact Hrest]].
      constructor; [|exact Hb].
      unfold minute_window_open. now rewrite Hst, Hen.
Qed.

Lemma scan_schedules_none cm data :
  Forall (fun e => well_formed e = true) data ->
  (scan_schedules cm data = Ok None <->
   Forall (fun e => minute_window_open cm e = false) data).
Proof.
  induction 1 as [|sch rest Hwf _ IH]; simpl.
  - split; auto.
  - rewrite Forall_cons. unfold well_formed in Hwf. unfold minute_window_open at 1.
    destruct (parse_time_string (s_start_time sch)) as [st|]; [|discriminate].
    destruct (parse_time_string (s_end_time sch)) as [en|]; [|discriminate].
    destruct (s_sections sch) as [sec|] eqn:Hsec; [|discriminate].
    simpl. unfold sections_of. rewrite Hsec. simpl.
    destruct ((time_to_minutes st - CONFIG.EARLY_WINDOW_MINUTES <=? cm)
              && (cm <=? time_to_minutes en - CONFIG.END_BUFFER_MINUTES)) eqn:Hin.
    + split; [discriminate|]. intros [Hhd _]. discriminate.
    + rewrite IH. tauto.
Qed.

Lemma scan_schedules_total cm data :
  Forall (fun e => well_formed e = true) data ->
  exists r, scan_schedules cm data = Ok r.
Proof.
  induction 1 as [|sch rest Hwf _ IH]; simpl; eauto.
  unfold well_formed in Hwf.
  destruct (parse_time_string (s_start_time sch)) as [st|]; [|discriminate].
  destruct (parse_time_string (s_end_time sch)) as [en|]; [|discriminate].
  unfold sections_of.
  destruct (s_sections sch) as [sec|]; [|discriminate]. simpl.
  destruct (_ && _); eauto.
Qed.

Lemma minute_window_open_iff cm sch st en :
  parse_time_string (s_start_time sch) = Ok st ->
  parse_time_string (s_end_time sch) = Ok en ->
  (minute_window_open cm sch = true <->
   time_to_minutes st - 15 <= cm <= time_to_minutes en - 15).
Proof.
  intros Hst Hen. unfold minute_window_open. rewrite Hst, Hen.
  unfold CONFIG.EARLY_WINDOW_MINUTES, CONFIG.END_BUFFER_MINUTES.
  rewrite andb_true_iff, !Z.leb_le. tauto.
Qed.

(** C1, as amended.  The resolver works on whole minutes: the seconds of
    the current time and of the stored start and end times are dropped by
    [time_to_minutes].  For rows of the current day that parse, it
    returns a window exactly when some row has
    [start - 15 <= now <= end - 15] in minutes since midnight; the window
    is the one of the first such row in query order; when no row
    qualifies it returns None. *)
Theorem resolve_first_open_minute_window day now rows :
  Forall (fun e => well_formed e = true) (schedules_of_day day rows) ->
  ((exists w, resolve day now rows = Ok (Some w)) <->
   Exists (fun e => minute_window_open (time_to_minutes now) e = true)
     (schedules_of_day day rows)) /\
  (forall w, resolve day now rows = Ok (Some w) ->
     exists before sch after,
       schedules_of_day day rows = (before ++ sch :: after)%list /\
       Forall (fun e => minute_window_open (time_to_minutes now) e = false) before /\
       minute_window_open (time_to_minutes now) sch = true /\
       window_of_row w sch) /\
  (resolve day now rows = Ok None <->
   Forall (fun e => minute_window_open (time_to_minutes now) e = false)
     (schedules_of_day day rows)).
Proof.
  intros Hwf. unfold resolve.
  set (cm := time_to_minutes now). set (entries := schedules_of_day day rows) in *.
  assert (Hsome : forall w, scan_schedules cm entries = Ok (Some w) ->
            exists before sch after,
              entries = (before ++ sch :: after)%list /\
              Forall (fun e => minute_window_open cm e = false) before /\
              minute_window_open cm sch = true /\ window_of_row w sch).
  { intros w Hw.
    destruct (scan_schedules_some _ _ _ Hw)
      as (before & sch & after & st & en & He & Hb & Ho & _ & _ & Hrow & _).
    exists before, sch, after. auto. }
  split; [|split].
  - split.
    + intros [w Hw]. destruct (Hsome w Hw) as (before & sch & after & -> & _ & Ho & _).
      apply Exists_exists. exists sch. split; [|exact Ho].
      apply list_elem_of_In, in_or_app. right. now left.
    + intros Hex. destruct (scan_schedules_total cm entries Hwf) as [[w|] Hr].
      * now exists w.
      * apply (scan_schedules_none cm entries Hwf) in Hr.
        apply Exists_exists in Hex. destruct Hex as (e & Hin & Ho).
        rewrite Forall_forall in Hr. specialize (Hr e Hin). congruence.
  - exact Hsome.
  - apply scan_schedules_none, Hwf.
Qed.

Lemma resolve_first_open_minute_window_witness :
  Forall (fun e => well_formed e = true)
    (schedules_of_day "Monday" [ex_row; ex_row2]) /\
  (resolve "Monday" (mk_time 10 16 0) [ex_row; ex_row2] = Ok None <->
   Forall (fun e => minute_window_open (time_to_minutes (mk_time 10 16 0)) e = false)
     (schedules_of_day "Monday" [ex_row; ex_row2])).
Proof.
  assert (Hwf : Forall (fun e => well_formed e = true)
                  (schedules_of_day "Monday" [ex_row; ex_row2])).
  { replace (schedules_of_day "Monday" [ex_row; ex_row2]) with [ex_row; ex_row2]
      by (vm_compute; reflexivity).
    repeat constructor; vm_compute; reflexivity. }
  split; [exact Hwf|].
  exact (proj2 (proj2 (resolve_first_open_minute_window
                         "Monday" (mk_time 10 16 0) [ex_row; ex_row2] Hwf))).
Defined.

(** C1 as stated fails on instants with seconds: at 10:15:30 the instant
    is past [end - BUFFER] = 10:15:00, yet the resolver still returns the
    window of the 09:00-10:30 section. *)
Lemma resolve_open_after_window_close :
  spec_window_open (mk_time 10 15 30) (mk_time 9 0 0) (mk_time 10 30 0) = false /\
  parse_time_string (s_start_time ex_row) = Ok (mk_time 9 0 0) /\
  parse_time_string (s_end_time ex_row) = Ok (mk_time 10 30 0) /\
  resolved_section (resolve "Monday" (mk_time 10 15 30) [ex_row]) = Some "SEC1".
Proof. vm_compute. auto. Qed.

(** With two overlapping sections the window returned is the one of the
    first row, whatever the second row's interval says. *)
Example resolve_overlap_first_row :
  minute_window_open (time_to_minutes (mk_time 9 40 0)) ex_row2 = true /\
  resolved_section (resolve "Monday" (mk_time 9 40 0) [ex_row; ex_row2]) = Some "SEC1" /\
  resolved_section (resolve "Monday" (mk_time 9 40 0) [ex_row2; ex_row]) = Some "SEC2".
Proof. vm_compute. auto. Qed.

(** A row that does not parse makes the whole resolution raise, even when
    a later row is open; the cache turns that into None. *)
Example resolve_malformed_row_raises :
  resolve "Monday" (mk_time 9 40 0)
    [ {| s_section_id := "SEC0"; s_day_of_week := "Monday";
         s_start_time := "9h00"; s_end_time := "10:30:00";
         s_sections := None |}; ex_row ] = Raise ValueError.
Proof. reflexivity. Qed.

(** C2, as amended.  The status of the returned window is LATE exactly
    when the current minute is past [start + 15] in minutes since
    midnight, and PRESENT otherwise; seconds are dropped on both sides.
    For the 09:00-10:30 section: no window at 08:44, PRESENT at 08:45,
    PRESENT during the whole minute 09:15 (09:15:30 included), LATE from
    09:16, still LATE at 10:15, no window at 10:16. *)
Theorem status_late_iff_minute_past_cutoff :
  (forall day now rows w,
     resolve day now rows = Ok (Some w) ->
     exists st,
       parse_time_string (start_time w) = Ok st /\
       (status w = "late" <-> time_to_minutes st + 15 < time_to_minutes now) /\
       (status w = "present" <-> time_to_minutes now <= time_to_minutes st + 15)) /\
  resolve "Monday" (mk_time 8 44 59) [ex_row] = Ok None /\
  resolved_status (resolve "Monday" (mk_time 8 45 0) [ex_row]) = Some "present" /\
  resolved_status (resolve "Monday" (mk_time 9 15 0) [ex_row]) = Some "present" /\
  resolved_status (resolve "Monday" (mk_time 9 15 30) [ex_row]) = Some "present" /\
  resolved_status (resolve "Monday" (mk_time 9 16 0) [ex_row]) = Some "late" /\
  resolved_status (resolve "Monday" (mk_time 10 15 0) [ex_row]) = Some "late" /\
  resolve "Monday" (mk_time 10 16 0) [ex_row] = Ok None.
Proof.
  split; [|vm_compute; repeat split].
  intros day now rows w Hw. unfold resolve in Hw.
  destruct (scan_schedules_some _ _ _ Hw)
    as (_ & sch & _ & st & _ & _ & _ & _ & Hst & _ & Hrow & Hlate & Hstatus).
  destruct Hrow as (_ & Hstart & _).
  exists st. rewrite Hstart. split; [exact Hst|].
  rewrite Hstatus, Hlate. unfold CONFIG.LATE_GRACE_MINUTES.
  destruct (Z.ltb_spec (time_to_minutes st + 15) (time_to_minutes now)).
  - split; split; intros; try reflexivity; try lia; discriminate.
  - split; split; intros; try reflexivity; try lia; discriminate.
Qed.

Lemma status_late_iff_minute_past_cutoff_witness :
  exists st,
    parse_time_string "09:00:00" = Ok st /\
    ("late" = "late" <-> time_to_minutes st + 15 < time_to_minutes (mk_time 9 16 0)) /\
    ("late" = "present" <-> time_to_minutes (mk_time 9 16 0) <= time_to_minutes st + 15).
Proof.
  exact (proj1 status_late_iff_minute_past_cutoff "Monday" (mk_time 9 16 0) [ex_row]
           {| section_id := "SEC1"; course_id := "CSC1"; section_name := "Section 1";
              start_time := "09:00:00"; end_time := "10:30:00"; is_late := true;
              window_start := "08:45"; late_cutoff := "09:15"; window_end := "10:15";
              status := "late" |} eq_refl).
Defined.

(** C2 as stated fails at a sub-minute instant: 09:15:30 is strictly
    after [start + LATE_GRACE] = 09:15:00, yet the status is PRESENT. *)
Lemma status_present_after_late_cutoff :
  spec_is_late (mk_time 9 15 30) (mk_time 9 0 0) = true /\
  parse_time_string (s_start_time ex_row) = Ok (mk_time 9 0 0) /\
  resolved_status (resolve "Monday" (mk_time 9 15 30) [ex_row]) = Some "present".
Proof. vm_compute. auto. Qed.

(** ** Attendance writer *)

Ltac state_simpl :=
  cbn [supabase db faults trace current_attendance_window last_window_check
       attendance_logged_today student_cache
       set_db set_call set_current_attendance_window set_last_window_check
       set_attendance_logged_today set_student_cache
       section_schedules students student_section_enrollments class_sessions
       attendance_records student_course_attendance
       insert_class_session insert_attendance_record insert_course_attendance
       fst snd returned negb ev_op ev_table ev_ok hd tl] in *.

(** Case analysis on the innermost [match] or [if] of the goal. *)
Ltac inner_case :=
  match goal with
  | |- context [match ?x with _ => _ end] =>
      lazymatch x with
      | context [match _ with _ => _ end] => fail
      | _ => destruct x eqn:?
      end
  end.

Ltac run := repeat (state_simpl; inner_case); state_simpl.

Lemma get_student_cached_spec m w v w' :
  get_student_cached m w = (v, w') ->
  same_globals w w' /\ db w' = db w /\
  exists evs, calls_added w w' evs /\
              Forall (fun e => ev_table e = "students") evs.
Proof.
  unfold get_student_cached, student_lookup, try_except, select, execute,
    bind, ret, calls_added.
  run; intros [= <- <-]; state_simpl;
    (split; [constructor; reflexivity|split; [reflexivity|]]);
    first [ exists []; split; [now rewrite app_nil_r|constructor]
          | eexists [_]; split; [reflexivity|repeat constructor] ].
Qed.

Lemma get_or_create_class_session_spec clk sec start w r w' :
  get_or_create_class_session clk sec start w = (r, w') ->
  same_globals w w' /\ student_cache w' = student_cache w /\
  attendance_records (db w') = attendance_records (db w) /\
  student_course_attendance (db w') = student_course_attendance (db w) /\
  student_section_enrollments (db w') = student_section_enrollments (db w) /\
  exists evs, calls_added w w' evs /\
              Forall (fun e => ev_table e = "class_sessions") evs.
Proof.
  unfold get_or_create_class_session, try_except, select, insert, execute,
    bind, ret, calls_added.
  run; intros [= <- <-]; state_simpl;
    (split; [constructor; reflexivity|]);
    do 4 (split; [reflexivity|]);
    first [ exists []; split; [now rewrite app_nil_r|constructor]
          | eexists [_]; split; [reflexivity|repeat constructor]
          | eexists [_; _]; split; [now rewrite <- app_assoc|repeat constructor] ].
Qed.

Lemma ensure_logged_set_spec sec w :
  same_globals_but_logged w (ensure_logged_set sec w) /\
  (forall s, logged_set (ensure_logged_set sec w) s = logged_set w s) /\
  is_Some (attendance_logged_today (ensure_logged_set sec w) !! sec).
Proof.
  unfold ensure_logged_set, logged_set.
  destruct (attendance_logged_today w !! sec) as [S|] eqn:Hl.
  - split; [constructor; reflexivity|]. split; [reflexivity|]. now exists S.
  - state_simpl. split; [constructor; reflexivity|]. split.
    + intros s. destruct (decide (sec = s)) as [<-|Hne].
      * now rewrite lookup_insert_eq, Hl.
      * now rewrite lookup_insert_ne.
    + rewrite lookup_insert_eq. now exists ∅.
Qed.

Lemma filter_nil_of_existsb {A} (p : A -> bool) (l : list A) :
  existsb p l = false -> List.filter p l = [].
Proof.
  induction l as [|a l IH]; simpl; [reflexivity|].
  destruct (p a); simpl; [discriminate|exact IH].
Qed.

(** A lookup that storage answers (or the cache holds) yields
    [known_student]; nothing but the cache and the log of calls moves. *)
Lemma get_student_cached_known m w :
  supabase w = true ->
  hd false (faults w) = false ->
  exists w',
    get_student_cached m w = (known_student w m, w') /\
    same_globals w w' /\ db w' = db w /\
    (faults w' = faults w \/ faults w' = tl (faults w)) /\
    exists evs, calls_added w w' evs /\
                Forall (fun e => ev_op e = Select /\ ev_table e = "students") evs.
Proof.
  intros Hs Hf.
  unfold get_student_cached, known_student, student_lookup, try_except, select,
    execute, bind, ret, calls_added.
  rewrite Hs, Hf. state_simpl.
  destruct (cache_find m (student_cache w)) as [v|]; state_simpl.
  - eexists. split; [reflexivity|]. state_simpl.
    split; [constructor; reflexivity|]. split; [reflexivity|].
    split; [now left|]. exists []. split; [now rewrite app_nil_r|constructor].
  - destruct (List.filter _ (students (db w))) as [|r l]; state_simpl;
      (eexists; split; [reflexivity|]; state_simpl;
       split; [constructor; reflexivity|]; split; [reflexivity|];
       split; [now right|]; eexists [_]; split; [reflexivity|];
       repeat constructor).
Qed.

(** C10.  A call made while no attendance window is active, or while the
    storage client is not initialised, returns False at once: the whole
    state is as before, so no storage call was made, nothing was stored
    and the sets of logged students are untouched. *)
Theorem log_attendance_inactive clk m w :
  current_attendance_window w = None \/ supabase w = false ->
  log_attendance clk m w = (Inactive, w) /\
  returned (fst (log_attendance clk m w)) = false /\
  trace (snd (log_attendance clk m w)) = trace w /\
  db (snd (log_attendance clk m w)) = db w /\
  attendance_logged_today (snd (log_attendance clk m w)) = attendance_logged_today w.
Proof.
  intros H.
  assert (E : log_attendance clk m w = (Inactive, w)).
  { unfold log_attendance.
    destruct (current_attendance_window w); [|reflexivity].
    destruct H as [H|H]; [discriminate|]. now rewrite H. }
  rewrite E. repeat split.
Qed.

(** A student already in the set of the active section is turned away
    before any storage call, whatever the day. *)
Lemma log_attendance_already clk m w win :
  current_attendance_window w = Some win ->
  supabase w = true ->
  m ∈ logged_set w (section_id win) ->
  log_attendance clk m w = (AlreadyLogged, w).
Proof.
  intros Hw Hs Hm. unfold log_attendance. rewrite Hw, Hs. cbn [negb].
  assert (He : ensure_logged_set (section_id win) w = w).
  { unfold ensure_logged_set. unfold logged_set in Hm.
    destruct (attendance_logged_today w !! section_id win); [reflexivity|].
    simpl in Hm. set_solver. }
  rewrite He. destruct (decide (m ∈ logged_set w (section_id win))); [reflexivity|].
  contradiction.
Qed.

(** C7.  A known student with no enrollment row for the active section
    is turned away at the enrollment check: the call returns False by the
    NotEnrolled exit, storage is as before (so no class session was
    created) and the only storage calls made are reads, none of them on
    [class_sessions]. *)
Theorem log_attendance_not_enrolled clk m w win st :
  current_attendance_window w = Some win ->
  supabase w = true ->
  m ∉ logged_set w (section_id win) ->
  known_student w m = Some st ->
  enrolled (db w) (id st) (section_id win) = false ->
  hd false (faults w) = false ->
  hd false (tl (faults w)) = false ->
  exists w',
    log_attendance clk m w = (NotEnrolled, w') /\
    returned NotEnrolled = false /\
    db w' = db w /\
    class_sessions (db w') = class_sessions (db w) /\
    exists evs, calls_added w w' evs /\
                Forall (fun e => ev_op e = Select /\ ev_table e <> "class_sessions") evs.
Proof.
  intros Hw Hs Hm Hst Hen Hf1 Hf2.
  unfold log_attendance. rewrite Hw, Hs. cbn [negb].
  destruct (ensure_logged_set_spec (section_id win) w) as ([] & Hlog & _).
  set (w0 := ensure_logged_set (section_id win) w) in *.
  destruct (decide (m ∈ logged_set w0 (section_id win))) as [Hin|_].
  { rewrite Hlog in Hin. contradiction. }
  destruct (get_student_cached_known m w0) as (w1 & E1 & [] & Hdb1 & Hfl1 & evs1 & Hev1 & Hall1);
    [congruence|congruence|].
  assert (Hk : known_student w0 m = Some st).
  { unfold known_student. rewrite sl_cache0, sl_db0. exact Hst. }
  rewrite Hk in E1.
  assert (Hf : hd false (faults w1) = false).
  { destruct Hfl1 as [->| ->]; congruence. }
  unfold try_except, log_attendance_body, select, execute, call, ret, bind.
  rewrite E1. state_simpl. rewrite Hf. state_simpl.
  rewrite Hdb1, sl_db0.
  unfold enrolled in Hen. rewrite (filter_nil_of_existsb _ _ Hen). cbn [firstn].
  eexists. split; [reflexivity|]. state_simpl.
  split; [reflexivity|]. split; [congruence|]. split; [congruence|].
  exists (evs1 ++ [{| ev_op := Select; ev_table := "student_section_enrollments";
                      ev_ok := true |}])%list.
  unfold calls_added in *. state_simpl. split.
  - rewrite Hev1, sl_trace0. now rewrite app_assoc.
  - apply Forall_app. split.
    + eapply Forall_impl; [exact Hall1|]. intros e [-> ->]. split; [reflexivity|discriminate].
    + repeat constructor. discriminate.
Qed.

Ltac run_body :=
  unfold try_except, log_attendance_body, mark_logged, select, insert, execute,
    call, ret, bind;
  run.

Ltac use_helper_specs :=
  repeat match goal with
    | H : get_student_cached _ _ = (_, _) |- _ =>
        apply get_student_cached_spec in H;
        destruct H as ([] & ? & ? & ? & ?)
    | H : get_or_create_class_session _ _ _ _ = (_, _) |- _ =>
        apply get_or_create_class_session_spec in H;
        destruct H as ([] & ? & ? & ? & ? & ? & ? & ?)
    end;
  unfold calls_added in *; state_simpl.

Lemma not_in_by_table (evs : list event) (t : string) (e : event) :
  Forall (fun e' => ev_table e' = t) evs -> ev_table e <> t -> ~ In e evs.
Proof.
  intros Hall Hne Hin. rewrite Forall_forall in Hall.
  apply list_elem_of_In, Hall in Hin. contradiction.
Qed.

Lemma no_calls_added w evs : trace w = (trace w ++ evs)%list -> evs = [].
Proof.
  intros H. rewrite <- (app_nil_r (trace w)) in H at 1.
  apply app_inv_head in H. now subst.
Qed.

(** Express the log of the final state as the initial log followed by
    the calls of each step, and read off the calls added. *)
Ltac read_calls Htr evs :=
  repeat match goal with
    | H : trace ?x = _ |- _ =>
        tryif constr_eq H Htr then fail else (rewrite H in Htr; clear H)
    end;
  rewrite <- ?app_assoc in Htr; apply app_inv_head in Htr; subst evs.

(** A call that is claimed to occur among the calls added: either it is
    one of the calls of a helper, which are on another table, or it is
    one of the calls listed. *)
Ltac absurd_call Hin :=
  rewrite ?in_app_iff in Hin; cbn [In] in Hin;
  repeat destruct Hin as [Hin|Hin];
  try discriminate Hin; try contradiction;
  try match goal with
      | H : Forall _ ?l |- _ =>
          match type of Hin with
          | In _ l => exfalso; refine (not_in_by_table _ _ _ H _ Hin); discriminate
          end
      end.

(** C6.  When the insert into [attendance_records] raises, the call
    leaves by the except branch and returns False; no row was added to
    [student_course_attendance] or to [attendance_records], and every
    section's set of logged students has the members it had, so the
    student is not in the set of the active section and a later call is
    not turned away by it. *)
Theorem failed_record_insert_leaves_no_mark clk m w o w' evs :
  log_attendance clk m w = (o, w') ->
  calls_added w w' evs ->
  In {| ev_op := Insert; ev_table := "attendance_records"; ev_ok := false |} evs ->
  o = Failed /\ returned o = false /\
  student_course_attendance (db w') = student_course_attendance (db w) /\
  attendance_records (db w') = attendance_records (db w) /\
  (forall s, logged_set w' s = logged_set w s) /\
  (forall win, current_attendance_window w = Some win ->
               m ∉ logged_set w' (section_id win)).
Proof.
  unfold log_attendance.
  destruct (current_attendance_window w) as [win|] eqn:Hw.
  2:{ intros [= <- <-] Htr Hin. apply no_calls_added in Htr. subst evs. destruct Hin. }
  destruct (supabase w) eqn:Hs; cbn [negb].
  2:{ intros [= <- <-] Htr Hin. apply no_calls_added in Htr. subst evs. destruct Hin. }
  destruct (ensure_logged_set_spec (section_id win) w) as ([] & Hlog & _).
  set (w0 := ensure_logged_set (section_id win) w) in *. clearbody w0.
  destruct (decide (m ∈ logged_set w0 (section_id win))) as [_|Hm].
  { intros [= <- <-] Htr Hin. unfold calls_added in Htr. rewrite sl_trace0 in Htr.
    apply no_calls_added in Htr. subst evs. destruct Hin. }
  run_body; intros [= <- <-] Htr Hin; use_helper_specs; read_calls Htr evs;
    absurd_call Hin.
  match goal with
  | |- _ /\ _ /\ _ /\ _ /\ (forall s, logged_set ?W s = _) /\ _ =>
      assert (Hsets : forall s, logged_set W s = logged_set w s)
  end.
  { intros sct. rewrite <- Hlog. unfold logged_set. state_simpl. congruence. }
  split; [reflexivity|]. split; [reflexivity|].
  split; [congruence|]. split; [congruence|]. split; [exact Hsets|].
  intros win' [= <-]. rewrite Hsets, <- Hlog. exact Hm.
Qed.

Lemma take_1_nil {A} (l : list A) : take 1 l = [] -> l = [].
Proof. destruct l; [reflexivity|discriminate]. Qed.

(** What a call that returns True has done. *)
Lemma log_attendance_written clk m w w1 :
  log_attendance clk m w = (Written, w1) ->
  exists win rec,
    current_attendance_window w = Some win /\
    current_attendance_window w1 = Some win /\
    supabase w1 = true /\
    m ∈ logged_set w1 (section_id win) /\
    attendance_records (db w1) = (attendance_records (db w) ++ [rec])%list /\
    ar_status rec = status win /\
    records_of (db w) (ar_student_id rec) (ar_class_session_id rec) = [].
Proof.
  unfold log_attendance.
  destruct (current_attendance_window w) as [win|] eqn:Hw; [|discriminate].
  destruct (supabase w) eqn:Hs; cbn [negb]; [|discriminate].
  destruct (ensure_logged_set_spec (section_id win) w) as ([] & Hlog & _).
  set (w0 := ensure_logged_set (section_id win) w) in *. clearbody w0.
  destruct (decide (m ∈ logged_set w0 (section_id win))) as [_|Hm]; [discriminate|].
  run_body; intros Heq; try discriminate Heq; injection Heq as <-; use_helper_specs.
  all: exists win; eexists.
  all: split; [reflexivity|]; split; [congruence|]; split; [congruence|].
  all: split;
    [unfold logged_set at 1; state_simpl; rewrite lookup_insert_eq;
     cbn [from_option Datatypes.id];
     rewrite elem_of_union, elem_of_singleton; now left|].
  all: split;
    [match goal with
     | |- (attendance_records (db ?a) ++ _)%list = _ =>
         replace (attendance_records (db a)) with (attendance_records (db w))
           by congruence
     end; reflexivity|].
  all: split; [reflexivity|].
  all: unfold records_of; cbn [ar_student_id ar_class_session_id].
  all: match goal with
       | H : take 1 (List.filter _ (attendance_records (db ?a))) = [] |- _ =>
           apply take_1_nil in H;
           replace (attendance_records (db a)) with (attendance_records (db w)) in H
             by congruence;
           exact H
       end.
Qed.

(** When a call for a student returns True, the next call for the same
    student under the same window returns False by the in-memory check
    and changes nothing, whatever the time of that call; the first call
    stored one record, for a student and session that had none. *)
Lemma log_attendance_then_duplicate clk m w w1 :
  log_attendance clk m w = (Written, w1) ->
  (forall clk', log_attendance clk' m w1 = (AlreadyLogged, w1)) /\
  exists rec,
    attendance_records (db w1) = (attendance_records (db w) ++ [rec])%list /\
    records_of (db w) (ar_student_id rec) (ar_class_session_id rec) = [] /\
    records_of (db w1) (ar_student_id rec) (ar_class_session_id rec) = [rec].
Proof.
  intros H.
  destruct (log_attendance_written _ _ _ _ H)
    as (win & rec & _ & Hw1 & Hs1 & Hm1 & Hrec & _ & Hnone).
  split.
  { intros clk'. now apply log_attendance_already with win. }
  exists rec. split; [exact Hrec|]. split; [exact Hnone|].
  unfold records_of in *. rewrite Hrec, List.filter_app, Hnone. cbn [List.filter app].
  now rewrite !String.eqb_refl.
Qed.

Lemma filter_cons_of_existsb {A} (p : A -> bool) (l : list A) :
  existsb p l = true -> exists a l', List.filter p l = a :: l'.
Proof.
  induction l as [|a l IH]; simpl; [discriminate|].
  destruct (p a); simpl; eauto.
Qed.

(** With storage answering, the session helper returns
    [session_id_for] and touches no table but [class_sessions]. *)
Lemma get_or_create_class_session_ok clk sec start w :
  supabase w = true ->
  faults w = [] ->
  exists w',
    get_or_create_class_session clk sec start w
    = (Some (session_id_for clk (db w) sec), w') /\
    same_globals w w' /\ faults w' = [] /\
    attendance_records (db w') = attendance_records (db w) /\
    student_course_attendance (db w') = student_course_attendance (db w).
Proof.
  intros Hs Hf.
  unfold get_or_create_class_session, session_id_for, try_except, select, insert,
    execute, bind, ret.
  rewrite Hs, Hf. state_simpl. cbn [hd tl]. state_simpl.
  destruct (List.filter _ (class_sessions (db w))) as [|r l]; state_simpl;
    (eexists; split; [reflexivity|]; state_simpl;
     split; [constructor; reflexivity|]; repeat split).
Qed.

(** C5.  For a known student who is enrolled in the section of the
    active window, is not yet in the section's set and has no stored
    record for today's session, with storage answering: the first call
    returns True (Written), a second call for the same student under the
    same window returns False by the in-memory check (DuplicateSkipped)
    and leaves the whole state as it is, and storage then holds exactly
    one attendance record for that student and session. *)
Theorem log_attendance_twice clk m w win st :
  current_attendance_window w = Some win ->
  supabase w = true ->
  m ∉ logged_set w (section_id win) ->
  known_student w m = Some st ->
  enrolled (db w) (id st) (section_id win) = true ->
  faults w = [] ->
  Py.truthy (session_id_for clk (db w) (section_id win)) = true ->
  records_of (db w) (id st) (session_id_for clk (db w) (section_id win)) = [] ->
  exists w1,
    log_attendance clk m w = (Written, w1) /\ returned Written = true /\
    (forall clk', log_attendance clk' m w1 = (AlreadyLogged, w1)) /\
    returned AlreadyLogged = false /\
    length (records_of (db w1) (id st)
              (session_id_for clk (db w) (section_id win))) = 1%nat.
Proof.
  intros Hw Hs Hm Hk Hen Hf Hsid Hnone.
  assert (Hrun : exists w1 rec,
             log_attendance clk m w = (Written, w1) /\
             attendance_records (db w1) = (attendance_records (db w) ++ [rec])%list /\
             ar_student_id rec = id st /\
             ar_class_session_id rec = session_id_for clk (db w) (section_id win)).
  { unfold log_attendance. rewrite Hw, Hs. cbn [negb].
    destruct (ensure_logged_set_spec (section_id win) w) as ([] & Hlog & _).
    set (w0 := ensure_logged_set (section_id win) w) in *. clearbody w0.
    destruct (decide (m ∈ logged_set w0 (section_id win))) as [Hin|_].
    { rewrite Hlog in Hin. contradiction. }
    destruct (get_student_cached_known m w0)
      as (w1 & E1 & [] & Hdb1 & Hfl1 & _); [congruence| |].
    { rewrite sl_faults0, Hf. reflexivity. }
    assert (Hk0 : known_student w0 m = Some st).
    { unfold known_student. rewrite sl_cache0, sl_db0. exact Hk. }
    rewrite Hk0 in E1.
    assert (Hf1 : faults w1 = []).
    { destruct Hfl1 as [->| ->]; rewrite sl_faults0, Hf; reflexivity. }
    unfold try_except, log_attendance_body, mark_logged, select, insert, execute,
      call, ret, bind.
    rewrite E1. state_simpl. rewrite Hf1. cbn [hd tl]. state_simpl.
    rewrite Hdb1, sl_db0.
    destruct (filter_cons_of_existsb _ _ Hen) as (en & ens & ->). cbn [firstn].
    match goal with
    | |- context [get_or_create_class_session clk ?sec ?start ?x] =>
        destruct (get_or_create_class_session_ok clk sec start x)
          as (w2 & E2 & [] & Hf2 & Har2 & Hca2); [state_simpl; congruence|reflexivity|]
    end.
    state_simpl. rewrite E2. state_simpl.
    rewrite Hdb1, sl_db0, Hsid. cbn [negb]. state_simpl.
    rewrite Hf2. cbn [hd tl]. state_simpl.
    rewrite Har2, Hdb1, sl_db0.
    unfold records_of in Hnone. rewrite Hnone. cbn [firstn]. state_simpl.
    match goal with |- context [firstn 1 ?l] => destruct (firstn 1 l) end;
      state_simpl;
      (eexists; eexists; split; [reflexivity|]; state_simpl;
       rewrite Har2, Hdb1, sl_db0; repeat split). }
  destruct Hrun as (w1 & rec & Hrun & Hrec & Hsid1 & Hcs1).
  exists w1. split; [exact Hrun|]. split; [reflexivity|].
  destruct (log_attendance_then_duplicate _ _ _ _ Hrun) as (Hdup & _).
  split; [exact Hdup|]. split; [reflexivity|].
  unfold records_of in *. rewrite Hrec, List.filter_app, Hnone. cbn [List.filter app].
  now rewrite Hsid1, Hcs1, !String.eqb_refl.
Qed.

(** ** Window cache *)

(** Within the check interval the cache answers and nothing moves. *)
Lemma get_current_attendance_window_cached clk w :
  time_time clk - last_window_check w < CONFIG.WINDOW_CHECK_INTERVAL * 1000000 ->
  get_current_attendance_window clk w = (current_attendance_window w, w).
Proof.
  intros H. unfold get_current_attendance_window.
  apply Z.ltb_lt in H. now rewrite H.
Qed.

(** A refresh that storage answers publishes what the resolver says. *)
Lemma get_current_attendance_window_refresh clk w :
  CONFIG.WINDOW_CHECK_INTERVAL * 1000000 <= time_time clk - last_window_check w ->
  supabase w = true ->
  hd false (faults w) = false ->
  let r := match resolve (weekday clk) (now_time clk) (section_schedules (db w)) with
           | Ok r => r
           | Raise _ => None
           end in
  fst (get_current_attendance_window clk w) = r /\
  current_attendance_window (snd (get_current_attendance_window clk w)) = r.
Proof.
  intros Hdue Hs Hf. unfold get_current_attendance_window.
  apply Z.ltb_ge in Hdue. rewrite Hdue. state_simpl. rewrite Hs. cbn [negb].
  unfold try_except, window_detection, select, execute, bind, resolve, schedules_of_day.
  state_simpl. rewrite Hf. state_simpl.
  destruct (List.filter _ (section_schedules (db w))) as [|r0 l] eqn:Hdata.
  - state_simpl. cbn [scan_schedules]. now split.
  - destruct (scan_schedules _ (r0 :: l)) as [[win|]|e]; state_simpl; now split.
Qed.

(** The sets of logged students are out of the window cache's reach. *)
Lemma get_current_attendance_window_keeps_logged clk w :
  attendance_logged_today (snd (get_current_attendance_window clk w))
  = attendance_logged_today w.
Proof.
  unfold get_current_attendance_window, try_except, window_detection, select,
    execute, bind.
  run; reflexivity.
Qed.

(** C3, as amended.  When a refresh is due and the schedule query
    raises, the call returns None, the cached window is cleared and the
    time of the check is kept; nothing is raised to the caller (the
    function returns a plain value). *)
Theorem refresh_failure_clears_window clk w :
  CONFIG.WINDOW_CHECK_INTERVAL * 1000000 <= time_time clk - last_window_check w ->
  supabase w = true ->
  hd false (faults w) = true ->
  exists w',
    get_current_attendance_window clk w = (None, w') /\
    current_attendance_window w' = None /\
    last_window_check w' = time_time clk /\
    db w' = db w /\
    calls_added w w'
      [{| ev_op := Select; ev_table := "section_schedules"; ev_ok := false |}].
Proof.
  intros Hdue Hs Hf. unfold get_current_attendance_window.
  apply Z.ltb_ge in Hdue. rewrite Hdue. state_simpl. rewrite Hs. cbn [negb].
  unfold try_except, window_detection, select, execute, bind, calls_added.
  state_simpl. rewrite Hf. state_simpl.
  eexists. split; [reflexivity|]. state_simpl. repeat split.
Qed.

Lemma refresh_failure_clears_window_witness :
  exists w',
    get_current_attendance_window ex_monday ex_world_unreachable = (None, w') /\
    current_attendance_window w' = None /\
    last_window_check w' = time_time ex_monday /\
    db w' = db ex_world_unreachable /\
    calls_added ex_world_unreachable w'
      [{| ev_op := Select; ev_table := "section_schedules"; ev_ok := false |}].
Proof.
  apply (refresh_failure_clears_window ex_monday ex_world_unreachable).
  - vm_compute. discriminate.
  - reflexivity.
  - reflexivity.
Defined.

(** C3 as stated fails: the cache holds the Monday window, the refresh
    cannot reach the schedule source, and the call returns None and
    forgets the window. *)
Lemma refresh_failure_forgets_last_window :
  current_attendance_window ex_world_unreachable = Some ex_window /\
  fst (get_current_attendance_window ex_monday ex_world_unreachable) = None /\
  current_attendance_window
    (snd (get_current_attendance_window ex_monday ex_world_unreachable)) = None.
Proof. vm_compute. auto. Qed.

(** ** Attendance writer on the sample data *)

Lemma log_attendance_inactive_witness :
  log_attendance ex_monday "2211001" ex_world = (Inactive, ex_world) /\
  returned (fst (log_attendance ex_monday "2211001" ex_world)) = false /\
  trace (snd (log_attendance ex_monday "2211001" ex_world)) = trace ex_world /\
  db (snd (log_attendance ex_monday "2211001" ex_world)) = db ex_world /\
  attendance_logged_today (snd (log_attendance ex_monday "2211001" ex_world))
  = attendance_logged_today ex_world.
Proof.
  apply (log_attendance_inactive ex_monday "2211001" ex_world).
  left. reflexivity.
Defined.

Lemma log_attendance_not_enrolled_witness :
  exists w',
    log_attendance ex_monday "2211002" ex_world_open = (NotEnrolled, w') /\
    returned NotEnrolled = false /\
    db w' = db ex_world_open /\
    class_sessions (db w') = class_sessions (db ex_world_open) /\
    exists evs, calls_added ex_world_open w' evs /\
                Forall (fun e => ev_op e = Select /\ ev_table e <> "class_sessions") evs.
Proof.
  apply (log_attendance_not_enrolled ex_monday "2211002" ex_world_open ex_window
           {| id := "S2"; nickname := "Siti" |}).
  - reflexivity.
  - reflexivity.
  - vm_compute. intros H. discriminate H.
  - reflexivity.
  - reflexivity.
  - reflexivity.
  - reflexivity.
Defined.

Lemma log_attendance_twice_witness :
  exists w1,
    log_attendance ex_monday "2211001" ex_world_open = (Written, w1) /\
    returned Written = true /\
    (forall clk', log_attendance clk' "2211001" w1 = (AlreadyLogged, w1)) /\
    returned AlreadyLogged = false /\
    length (records_of (db w1) "S1"
              (session_id_for ex_monday (db ex_world_open) "SEC1")) = 1%nat.
Proof.
  apply (log_attendance_twice ex_monday "2211001" ex_world_open ex_window
           {| id := "S1"; nickname := "Ali" |}).
  - reflexivity.
  - reflexivity.
  - vm_compute. intros H. discriminate H.
  - reflexivity.
  - reflexivity.
  - reflexivity.
  - reflexivity.
  - reflexivity.
Defined.

Lemma failed_record_insert_leaves_no_mark_witness :
  fst (log_attendance ex_monday "2211001" ex_world_insert_fails) = Failed /\
  returned (fst (log_attendance ex_monday "2211001" ex_world_insert_fails)) = false /\
  student_course_attendance
    (db (snd (log_attendance ex_monday "2211001" ex_world_insert_fails)))
  = student_course_attendance (db ex_world_insert_fails) /\
  attendance_records
    (db (snd (log_attendance ex_monday "2211001" ex_world_insert_fails)))
  = attendance_records (db ex_world_insert_fails) /\
  (forall s, logged_set (snd (log_attendance ex_monday "2211001" ex_world_insert_fails)) s
             = logged_set ex_world_insert_fails s) /\
  (forall win, current_attendance_window ex_world_insert_fails = Some win ->
               "2211001" ∉ logged_set
                 (snd (log_attendance ex_monday "2211001" ex_world_insert_fails))
                 (section_id win)).
Proof.
  apply (failed_record_insert_leaves_no_mark ex_monday "2211001" ex_world_insert_fails
           (fst (log_attendance ex_monday "2211001" ex_world_insert_fails))
           (snd (log_attendance ex_monday "2211001" ex_world_insert_fails))
           [ {| ev_op := Select; ev_table := "students"; ev_ok := true |};
             {| ev_op := Select; ev_table := "student_section_enrollments"; ev_ok := true |};
             {| ev_op := Select; ev_table := "class_sessions"; ev_ok := true |};
             {| ev_op := Insert; ev_table := "class_sessions"; ev_ok := true |};
             {| ev_op := Select; ev_table := "attendance_records"; ev_ok := true |};
             {| ev_op := Insert; ev_table := "attendance_records"; ev_ok := false |} ]).
  - vm_compute. reflexivity.
  - vm_compute. reflexivity.
  - simpl. tauto.
Defined.

(** After the failed insert the next frame gets the record written: the
    session created by the failed call is found again and used. *)
Example retry_after_failed_insert :
  fst (log_attendance ex_monday "2211001"
         (snd (log_attendance ex_monday "2211001" ex_world_insert_fails))) = Written /\
  List.map ar_id
    (attendance_records
       (db (snd (log_attendance ex_monday "2211001"
                   (snd (log_attendance ex_monday "2211001" ex_world_insert_fails))))))
  = ["att_S1_session_SEC1_2025-01-06_2025-01-06"] /\
  List.map cs_id
    (class_sessions
       (db (snd (log_attendance ex_monday "2211001"
                   (snd (log_attendance ex_monday "2211001" ex_world_insert_fails))))))
  = ["session_SEC1_2025-01-06"].
Proof. vm_compute. auto. Qed.

(** *** The sets of logged students across days *)

(** C4, the code at the failing input.  The student is logged on Monday;
    on Tuesday the window of the same section is open, the student is
    still in the section's set, the call returns False by the in-memory
    check, and storage holds no record for Tuesday's session. *)
Theorem logged_set_survives_day_rollover :
  fst (log_attendance ex_monday "2211001"
         (snd (get_current_attendance_window ex_monday ex_world))) = Written /\
  option_map section_id (current_attendance_window ex_tuesday_open) = Some "SEC1" /\
  enrolled (db ex_tuesday_open) "S1" "SEC1" = true /\
  bool_decide ("2211001" ∈ logged_set ex_tuesday_open "SEC1") = true /\
  log_attendance ex_tuesday "2211001" ex_tuesday_open = (AlreadyLogged, ex_tuesday_open) /\
  returned AlreadyLogged = false /\
  List.map ar_id (attendance_records (db ex_tuesday_open))
  = ["att_S1_session_SEC1_2025-01-06_2025-01-06"] /\
  List.map cs_class_date (class_sessions (db ex_tuesday_open)) = ["2025-01-06"].
Proof. vm_compute. repeat split. Qed.

(** No call ever takes a student out of a section's set. *)
Lemma log_attendance_keeps_logged clk m w o w' s x :
  log_attendance clk m w = (o, w') ->
  x ∈ logged_set w s -> x ∈ logged_set w' s.
Proof.
  unfold log_attendance.
  destruct (current_attendance_window w) as [win|] eqn:Hw;
    [|intros [= <- <-]; auto].
  destruct (supabase w) eqn:Hs; cbn [negb]; [|intros [= <- <-]; auto].
  destruct (ensure_logged_set_spec (section_id win) w) as ([] & Hlog & _).
  set (w0 := ensure_logged_set (section_id win) w) in *. clearbody w0.
  rewrite <- (Hlog s). clear Hlog.
  destruct (decide (m ∈ logged_set w0 (section_id win))) as [_|Hm];
    [intros [= <- <-]; auto|].
  run_body; intros [= <- <-] Hx; use_helper_specs;
    unfold logged_set in *; state_simpl;
    try (destruct (decide (section_id win = s)) as [<-|Hne];
         [rewrite lookup_insert_eq; cbn [from_option Datatypes.id];
          rewrite elem_of_union; right
         |rewrite lookup_insert_ne by exact Hne]);
    repeat match goal with
      | H : attendance_logged_today _ = attendance_logged_today _ |- _ =>
          rewrite H; clear H
      end;
    exact Hx.
Qed.

(** ** Bounded dispatch queue *)

Lemma full_iff {frame} (q : Dispatch.queue frame) :
  Dispatch.full frame q = (3 <=? Z.of_nat (length q)).
Proof. reflexivity. Qed.

(** The queue never grows past its capacity, whatever other threads did
    to it between the check and the put. *)
Lemma try_enqueue_at_bounded {frame} (q_check q_put : Dispatch.queue frame) f :
  Dispatch.qsize frame q_put <= CONFIG.FACE_QUEUE_MAXSIZE ->
  Dispatch.qsize frame (snd (Dispatch.try_enqueue_at frame q_check q_put f))
  <= CONFIG.FACE_QUEUE_MAXSIZE.
Proof.
  unfold Dispatch.try_enqueue_at, Dispatch.put_nowait, Dispatch.full,
    Dispatch.qsize, CONFIG.FACE_QUEUE_MAXSIZE.
  intros H. destruct (negb _); [|exact H]. cbn [andb Z.ltb Z.compare].
  destruct (Z.leb_spec 3 (Z.of_nat (length q_put))); cbn [snd]; [exact H|].
  rewrite length_app. cbn [length]. lia.
Qed.

(** C8.  With capacity 3, handing a frame to a full queue drops the
    frame and leaves the queue as it was; handing it to a queue that is
    not full appends it.  The step only uses the non-waiting calls
    [full()] and [put_nowait()], so it always ends with one of these two
    results, also when another thread changes the queue in between: then
    the frame is appended if the queue has room at the time of the put,
    and dropped otherwise. *)
Theorem try_enqueue_drops_when_full (frame : Type) :
  (forall (q : Dispatch.queue frame) (f : frame),
     Dispatch.try_enqueue frame q f =
     if 3 <=? Z.of_nat (length q) then (false, q) else (true, (q ++ [f])%list)) /\
  (forall (q_check q_put : Dispatch.queue frame) (f : frame),
     Dispatch.try_enqueue_at frame q_check q_put f =
     if (3 <=? Z.of_nat (length q_check)) || (3 <=? Z.of_nat (length q_put))
     then (false, q_put) else (true, (q_put ++ [f])%list)).
Proof.
  split.
  - intros q f. unfold Dispatch.try_enqueue, Dispatch.try_enqueue_at,
      Dispatch.put_nowait, Dispatch.full, Dispatch.qsize, CONFIG.FACE_QUEUE_MAXSIZE.
    cbn [andb Z.ltb Z.compare].
    destruct (3 <=? Z.of_nat (length q)); reflexivity.
  - intros q_check q_put f. unfold Dispatch.try_enqueue_at,
      Dispatch.put_nowait, Dispatch.full, Dispatch.qsize, CONFIG.FACE_QUEUE_MAXSIZE.
    cbn [andb Z.ltb Z.compare].
    destruct (3 <=? Z.of_nat (length q_check)),
             (3 <=? Z.of_nat (length q_put)); reflexivity.
Qed.

Example try_enqueue_full_queue :
  Dispatch.try_enqueue nat [1; 2; 3]%nat 4%nat = (false, [1; 2; 3]%nat) /\
  Dispatch.try_enqueue nat [1; 2]%nat 3%nat = (true, [1; 2; 3]%nat) /\
  Dispatch.try_enqueue_at nat [1; 2]%nat [1; 2; 9]%nat 3%nat = (false, [1; 2; 9]%nat).
Proof. repeat split. Qed.

(** ** Camera capture *)

Lemma capture_loop_flapping {frame} (n : nat) (latest : option frame) :
  Camera.capture_loop frame (repeat (Camera.flap frame) n)
    {| Camera.retry_count := 0; Camera.latest_frame := latest;
       Camera.shutdown := false |}
  = Camera.Retrying frame
      {| Camera.retry_count := 0; Camera.latest_frame := latest;
         Camera.shutdown := false |}.
Proof.
  induction n as [|n IH]; [reflexivity|].
  cbn [repeat Camera.capture_loop Camera.shutdown Camera.retry_count negb andb].
  exact IH.
Qed.

(** C9, as amended.  Every successful open sets the retry counter to
    zero at once, however few frames are then read (a read that raises
    leaves it at one); only passes in which the device does not open, or
    opening raises, add to the counter, and five of them in a row stop
    the loop.  A device that opens and fails its first read is therefore
    retried with the counter at zero for as long as it keeps flapping. *)
Theorem open_resets_retry_count (frame : Type) :
  (forall (s : Camera.state frame) (frames : list frame) (e : Camera.ending),
     Camera.retry_count frame (Camera.attempt_step frame (Camera.Opened frame frames e) s)
     = match e with Camera.ReadRaised => 1 | _ => 0 end) /\
  (forall s : Camera.state frame,
     Camera.retry_count frame (Camera.attempt_step frame (Camera.NotOpened frame) s)
     = Camera.retry_count frame s + 1) /\
  (forall s : Camera.state frame,
     Camera.retry_count frame (Camera.attempt_step frame (Camera.OpenRaised frame) s)
     = Camera.retry_count frame s + 1) /\
  (forall n : nat,
     Camera.capture_frames frame (repeat (Camera.flap frame) n)
     = Camera.Retrying frame
         {| Camera.retry_count := 0; Camera.latest_frame := None;
            Camera.shutdown := false |}) /\
  (forall rest : list (Camera.attempt frame),
     Camera.capture_frames frame (repeat (Camera.NotOpened frame) 5 ++ rest)
     = Camera.Stopped frame
         {| Camera.retry_count := 5; Camera.latest_frame := None;
            Camera.shutdown := false |}).
Proof.
  split; [|split; [|split; [|split]]].
  - intros s frames []; reflexivity.
  - reflexivity.
  - reflexivity.
  - intros n. apply capture_loop_flapping.
  - intros rest. destruct rest; reflexivity.
Qed.

(** C9 as stated fails: with four failed opens behind it, a device that
    opens and fails its very first read has its counter back at zero,
    and a thousand such passes in a row leave the loop still retrying. *)
Lemma retry_count_reset_on_open :
  Camera.retry_count nat
    (Camera.attempt_step nat (Camera.flap nat)
       {| Camera.retry_count := 4; Camera.latest_frame := None;
          Camera.shutdown := false |}) = 0 /\
  Camera.capture_frames nat (repeat (Camera.flap nat) 1000)
  = Camera.Retrying nat
      {| Camera.retry_count := 0; Camera.latest_frame := None;
         Camera.shutdown := false |}.
Proof. split; [reflexivity|apply capture_loop_flapping]. Qed.

(** * Further properties of the module *)

(** ** Time helpers *)

Lemma datetime_time_range h m s t :
  datetime_time h m s = Ok t ->
  t = mk_time h m s /\ 0 <= h <= 23 /\ 0 <= m <= 59 /\ 0 <= s <= 59.
Proof.
  unfold datetime_time.
  destruct ((0 <=? h) && (h <=? 23) && (0 <=? m) && (m <=? 59) && (0 <=? s)
            && (s <=? 59)) eqn:E; [|discriminate].
  intros [= <-]. rewrite !andb_true_iff, !Z.leb_le in E. intuition lia.
Qed.

Lemma parse_time_string_fields time_str t :
  parse_time_string time_str = Ok t ->
  0 <= hour t <= 23 /\ 0 <= minute t <= 59 /\ 0 <= second t <= 59.
Proof.
  unfold parse_time_string.
  destruct (Py.split ":" time_str) as [|p0 [|p1 tl]]; try discriminate.
  - destruct (Py.int p0); discriminate.
  - destruct (Py.int p0) as [h|]; [|discriminate]. cbn [rbind].
    destruct (Py.int p1) as [m|]; [|discriminate]. cbn [rbind].
    destruct (match tl with [] => Ok 0 | p2 :: _ => Py.int p2 end) as [s|];
      [|discriminate].
    cbn [rbind]. intros H. apply datetime_time_range in H.
    destruct H as (-> & Hh & Hm & Hs). cbn [hour minute second]. auto.
Qed.

(** X1.  Whatever string it is given, a time that [parse_time_string]
    returns lies within the day: hour 0..23, minute and second 0..59, so
    [time_to_minutes] of it is between 0 and 1439. *)
Theorem parse_time_string_within_day time_str t :
  parse_time_string time_str = Ok t ->
  0 <= hour t <= 23 /\ 0 <= minute t <= 59 /\ 0 <= second t <= 59 /\
  0 <= time_to_minutes t <= 1439.
Proof.
  intros H. destruct (parse_time_string_fields _ _ H) as (Hh & Hm & Hs).
  unfold time_to_minutes. repeat split; lia.
Qed.

Lemma parse_time_string_within_day_witness :
  0 <= hour (mk_time 10 30 0) <= 23 /\ 0 <= minute (mk_time 10 30 0) <= 59 /\
  0 <= second (mk_time 10 30 0) <= 59 /\
  0 <= time_to_minutes (mk_time 10 30 0) <= 1439.
Proof.
  apply (parse_time_string_within_day "10:30:00" (mk_time 10 30 0)).
  reflexivity.
Defined.

(** ** Schedule loop *)

Lemma scan_schedules_cons cm sch rest :
  scan_schedules cm (sch :: rest) =
  match scan_schedules cm [sch] with
  | Ok None => scan_schedules cm rest
  | r => r
  end.
Proof.
  cbn [scan_schedules].
  destruct (parse_time_string (s_start_time sch)) as [st|]; [|reflexivity].
  cbn [rbind].
  destruct (parse_time_string (s_end_time sch)) as [en|]; [|reflexivity].
  cbn [rbind].
  destruct ((time_to_minutes st - CONFIG.EARLY_WINDOW_MINUTES <=? cm)
            && (cm <=? time_to_minutes en - CONFIG.END_BUFFER_MINUTES));
    [|reflexivity].
  destruct (sections_of sch); reflexivity.
Qed.

Lemma scan_schedules_skip cm before rest :
  Forall (fun e => row_skipped cm e = true) before ->
  scan_schedules cm (before ++ rest) = scan_schedules cm rest.
Proof.
  induction 1 as [|sch before Hs _ IH]; [reflexivity|].
  cbn [app]. rewrite scan_schedules_cons. unfold row_skipped in Hs.
  destruct (scan_schedules cm [sch]) as [[?|]|]; try discriminate. exact IH.
Qed.

(** X2.  A row the loop raises on (a time that does not parse, or an open
    row without its section) hides every row after it: when the rows
    before it are passed over, the whole scan raises, whatever follows. *)
Theorem scan_schedules_raises_at_bad_row cm before bad after :
  Forall (fun e => row_skipped cm e = true) before ->
  row_raises cm bad = true ->
  exists e, scan_schedules cm (before ++ bad :: after) = Raise e.
Proof.
  intros Hb Hbad. rewrite (scan_schedules_skip cm before _ Hb).
  rewrite scan_schedules_cons. unfold row_raises in Hbad.
  destruct (scan_schedules cm [bad]) as [[?|]|e]; try discriminate. now exists e.
Qed.

Lemma scan_schedules_raises_at_bad_row_witness :
  exists e,
    scan_schedules 550
      ([ex_row2] ++
       {| s_section_id := "SEC0"; s_day_of_week := "Monday";
          s_start_time := "09:00:00.5"; s_end_time := "10:30:00";
          s_sections := None |} :: [ex_row]) = Raise e.
Proof.
  apply (scan_schedules_raises_at_bad_row 550 [ex_row2]
           {| s_section_id := "SEC0"; s_day_of_week := "Monday";
              s_start_time := "09:00:00.5"; s_end_time := "10:30:00";
              s_sections := None |} [ex_row]).
  - repeat constructor.
  - reflexivity.
Defined.

(** ** Window cache *)

Ltac run_window :=
  unfold get_current_attendance_window, try_except, window_detection, select,
    execute, bind;
  run.

(** X3.  The window check only reads: stored rows, the sets of logged
    students, the cache of student lookups and the client are as before,
    and it makes at most one storage call, a select on
    [section_schedules]. *)
Theorem get_current_attendance_window_reads_only clk w :
  db (snd (get_current_attendance_window clk w)) = db w /\
  attendance_logged_today (snd (get_current_attendance_window clk w))
  = attendance_logged_today w /\
  student_cache (snd (get_current_attendance_window clk w)) = student_cache w /\
  supabase (snd (get_current_attendance_window clk w)) = supabase w /\
  (calls_added w (snd (get_current_attendance_window clk w)) [] \/
   exists ok,
     calls_added w (snd (get_current_attendance_window clk w))
       [{| ev_op := Select; ev_table := "section_schedules"; ev_ok := ok |}]).
Proof.
  unfold calls_added. run_window;
    (do 4 (split; [reflexivity|]));
    first [ left; now rewrite app_nil_r | right; eexists; reflexivity ].
Qed.

Lemma refresh_sets_last_check clk w :
  CONFIG.WINDOW_CHECK_INTERVAL * 1000000 <= time_time clk - last_window_check w ->
  last_window_check (snd (get_current_attendance_window clk w)) = time_time clk.
Proof.
  intros Hdue. apply Z.ltb_ge in Hdue.
  unfold get_current_attendance_window. rewrite Hdue.
  unfold try_except, window_detection, select, execute, bind.
  run; reflexivity.
Qed.

(** X4.  After a check that refreshed, every call within the next thirty
    seconds returns the same value and touches nothing, whatever happened
    to the stored schedule in the meantime: a row added or removed is
    not seen until the interval has passed. *)
Theorem window_cache_serves_last_value clk clk' w w' :
  CONFIG.WINDOW_CHECK_INTERVAL * 1000000 <= time_time clk - last_window_check w ->
  time_time clk' - time_time clk < CONFIG.WINDOW_CHECK_INTERVAL * 1000000 ->
  current_attendance_window w'
  = current_attendance_window (snd (get_current_attendance_window clk w)) ->
  last_window_check w'
  = last_window_check (snd (get_current_attendance_window clk w)) ->
  get_current_attendance_window clk' w'
  = (fst (get_current_attendance_window clk w), w').
Proof.
  intros Hdue Hsoon Hcw Hlast.
  rewrite (refresh_sets_last_check clk w Hdue) in Hlast.
  rewrite get_current_attendance_window_cached by (rewrite Hlast; exact Hsoon).
  rewrite Hcw. f_equal. symmetry. run_window; reflexivity.
Qed.

Lemma window_cache_serves_last_value_witness :
  get_current_attendance_window
    {| time_time := 1736125229000000; weekday := "Monday";
       now_time := mk_time 9 0 29; now_time_iso := "09:00:29";
       today := "2025-01-06"; utc_date := "2025-01-06";
       utc_iso := "2025-01-06T01:00:29" |}
    (set_db
       {| section_schedules := []; students := []; student_section_enrollments := [];
          class_sessions := []; attendance_records := [];
          student_course_attendance := [] |}
       (snd (get_current_attendance_window ex_monday ex_world)))
  = (fst (get_current_attendance_window ex_monday ex_world),
     set_db
       {| section_schedules := []; students := []; student_section_enrollments := [];
          class_sessions := []; attendance_records := [];
          student_course_attendance := [] |}
       (snd (get_current_attendance_window ex_monday ex_world))).
Proof.
  apply (window_cache_serves_last_value ex_monday).
  - vm_compute. discriminate.
  - vm_compute. reflexivity.
  - reflexivity.
  - reflexivity.
Defined.

(** ** Cache of student lookups *)

Lemma cache_find_head m v c : cache_find m ((m, v) :: c) = Some v.
Proof. cbn [cache_find]. now rewrite String.eqb_refl. Qed.

Lemma get_student_cached_stores m w :
  cache_find m (student_cache (snd (get_student_cached m w)))
  = Some (fst (get_student_cached m w)).
Proof.
  unfold get_student_cached.
  destruct (cache_find m (student_cache w)) as [v|].
  - state_simpl. apply cache_find_head.
  - destruct (student_lookup m w) as [v w']. state_simpl.
    change LRU_MAXSIZE with (S 499). cbn [firstn]. apply cache_find_head.
Qed.

(** X5.  A lookup is remembered, failures included: once
    [get_student_cached] has answered for a matric number, the next
    lookup of it returns the same answer without a storage call, even
    when the first answer was None because storage could not be reached
    and the student is stored. *)
Theorem get_student_cached_remembers m w w2 :
  student_cache w2 = student_cache (snd (get_student_cached m w)) ->
  fst (get_student_cached m w2) = fst (get_student_cached m w) /\
  trace (snd (get_student_cached m w2)) = trace w2 /\
  faults (snd (get_student_cached m w2)) = faults w2 /\
  db (snd (get_student_cached m w2)) = db w2.
Proof.
  intros Hc. pose proof (get_student_cached_stores m w) as Hf.
  rewrite <- Hc in Hf. clear Hc.
  generalize dependent (get_student_cached m w). intros r Hf.
  unfold get_student_cached. rewrite Hf. state_simpl. repeat split.
Qed.

Lemma get_student_cached_remembers_witness :
  fst (get_student_cached "2211001"
         (set_call [] {| ev_op := Select; ev_table := "students"; ev_ok := false |}
            (snd (get_student_cached "2211001" ex_world_unreachable))))
  = fst (get_student_cached "2211001" ex_world_unreachable) /\
  trace (snd (get_student_cached "2211001"
           (set_call [] {| ev_op := Select; ev_table := "students"; ev_ok := false |}
              (snd (get_student_cached "2211001" ex_world_unreachable)))))
  = trace (set_call [] {| ev_op := Select; ev_table := "students"; ev_ok := false |}
             (snd (get_student_cached "2211001" ex_world_unreachable))) /\
  faults (snd (get_student_cached "2211001"
           (set_call [] {| ev_op := Select; ev_table := "students"; ev_ok := false |}
              (snd (get_student_cached "2211001" ex_world_unreachable)))))
  = faults (set_call [] {| ev_op := Select; ev_table := "students"; ev_ok := false |}
             (snd (get_student_cached "2211001" ex_world_unreachable))) /\
  db (snd (get_student_cached "2211001"
           (set_call [] {| ev_op := Select; ev_table := "students"; ev_ok := false |}
              (snd (get_student_cached "2211001" ex_world_unreachable)))))
  = db (set_call [] {| ev_op := Select; ev_table := "students"; ev_ok := false |}
             (snd (get_student_cached "2211001" ex_world_unreachable))).
Proof.
  apply (get_student_cached_remembers "2211001" ex_world_unreachable).
  reflexivity.
Defined.

(** The student is stored, the first lookup meets a fault, and the
    lookups after it answer None from the cache. *)
Example failed_lookup_is_remembered :
  stored_student (db ex_world_unreachable) "2211001"
  = Some {| id := "S1"; nickname := "Ali" |} /\
  fst (get_student_cached "2211001" ex_world_unreachable) = None /\
  faults (snd (get_student_cached "2211001" ex_world_unreachable)) = [] /\
  fst (get_student_cached "2211001"
         (snd (get_student_cached "2211001" ex_world_unreachable))) = None.
Proof. vm_compute. auto. Qed.

(** ** Class sessions *)

Lemma get_or_create_class_session_answered clk sec start w :
  supabase w = true ->
  faults w = [] ->
  exists w',
    get_or_create_class_session clk sec start w
    = (Some (session_id_for clk (db w) sec), w') /\
    supabase w' = true /\ faults w' = [] /\
    (forall clk', today clk' = today clk ->
       session_id_for clk' (db w') sec = session_id_for clk (db w) sec /\
       List.filter (fun r => String.eqb (cs_section_id r) sec
                             && String.eqb (cs_class_date r) (today clk'))
         (class_sessions (db w')) <> []).
Proof.
  intros Hs Hf.
  unfold get_or_create_class_session, session_id_for, try_except, select, insert,
    execute, bind, ret.
  rewrite Hs, Hf. state_simpl.
  destruct (List.filter _ (class_sessions (db w))) as [|r l] eqn:Hfl; state_simpl.
  - eexists. split; [reflexivity|]. state_simpl. split; [exact Hs|].
    split; [reflexivity|]. intros clk' ->.
    rewrite List.filter_app, Hfl. cbn [List.filter app cs_section_id cs_class_date].
    rewrite !String.eqb_refl. cbn [andb cs_id]. split; [reflexivity|discriminate].
  - eexists. split; [reflexivity|]. state_simpl. split; [exact Hs|].
    split; [reflexivity|]. intros clk' ->. rewrite Hfl. split; [reflexivity|discriminate].
Qed.

(** X6.  With storage answering, getting or creating the session of a
    section is idempotent within a day: a second call returns the same
    identifier and adds no row, whatever start time it is given. *)
Theorem get_or_create_class_session_idempotent clk clk' sec start start' w :
  supabase w = true ->
  faults w = [] ->
  today clk' = today clk ->
  exists sid w1 w2,
    get_or_create_class_session clk sec start w = (Some sid, w1) /\
    get_or_create_class_session clk' sec start' w1 = (Some sid, w2) /\
    class_sessions (db w2) = class_sessions (db w1).
Proof.
  intros Hs Hf Hday.
  destruct (get_or_create_class_session_answered clk sec start w Hs Hf)
    as (w1 & E1 & Hs1 & Hf1 & Hsame).
  destruct (Hsame clk' Hday) as [Hid Hne].
  exists (session_id_for clk (db w) sec), w1.
  unfold get_or_create_class_session at 2.
  unfold try_except, select, insert, execute, bind, ret.
  rewrite Hs1, Hf1. state_simpl.
  unfold session_id_for in Hid.
  destruct (List.filter _ (class_sessions (db w1))) as [|r l]; [contradiction|].
  state_simpl. eexists. split; [exact E1|]. split; [now rewrite Hid|reflexivity].
Qed.

Lemma get_or_create_class_session_idempotent_witness :
  exists sid w1 w2,
    get_or_create_class_session ex_monday "SEC1" "09:00:00" ex_world = (Some sid, w1) /\
    get_or_create_class_session ex_monday "SEC1" "" w1 = (Some sid, w2) /\
    class_sessions (db w2) = class_sessions (db w1).
Proof.
  apply (get_or_create_class_session_idempotent ex_monday ex_monday "SEC1"
           "09:00:00" "" ex_world); reflexivity.
Defined.

(** ** Attendance writer, further *)

(** X7.  A call stores at most one attendance record and never alters
    a stored one: the table after the call is the table before, with at
    most one row appended.  A call that returns True appended exactly
    one; a row is appended only by a call that returns True or that
    leaves by the except branch.  The window cache and the client are
    not touched. *)
Theorem log_attendance_appends_at_most_one clk m w o w' :
  log_attendance clk m w = (o, w') ->
  (exists added,
     attendance_records (db w') = (attendance_records (db w) ++ added)%list /\
     (length added <= 1)%nat /\
     (o = Written -> length added = 1%nat) /\
     (added <> [] -> o = Written \/ o = Failed)) /\
  current_attendance_window w' = current_attendance_window w /\
  last_window_check w' = last_window_check w /\
  supabase w' = supabase w.
Proof.
  assert (Hnone : forall (l : list attendance_record) (o : outcome),
             o <> Written ->
             exists added, l = (l ++ added)%list /\ (length added <= 1)%nat /\
                           (o = Written -> length added = 1%nat) /\
                           (added <> [] -> o = Written \/ o = Failed)).
  { intros l o' Ho. exists []. rewrite app_nil_r. cbn [length].
    repeat split; [lia|contradiction|contradiction]. }
  unfold log_attendance.
  destruct (current_attendance_window w) as [win|] eqn:Hw;
    [|intros [= <- <-]; split; [apply Hnone; discriminate|auto]].
  destruct (supabase w) eqn:Hs; cbn [negb];
    [|intros [= <- <-]; split; [apply Hnone; discriminate|auto]].
  destruct (ensure_logged_set_spec (section_id win) w) as ([] & Hlog & _).
  set (w0 := ensure_logged_set (section_id win) w) in *. clearbody w0.
  destruct (decide (m ∈ logged_set w0 (section_id win))) as [_|Hm].
  { intros [= <- <-]. split; [|repeat split; congruence].
    rewrite sl_db0. apply Hnone. discriminate. }
  run_body; intros [= <- <-]; use_helper_specs.
  all: split; [|repeat split; congruence].
  all: first
    [ match goal with
      | |- exists added, attendance_records (db ?a) = _ /\ _ =>
          replace (attendance_records (db a)) with (attendance_records (db w))
            by congruence;
          apply Hnone; discriminate
      end
    | match goal with
      | |- exists added, (attendance_records (db ?a) ++ [?r])%list = _ /\ _ =>
          replace (attendance_records (db a)) with (attendance_records (db w))
            by congruence;
          exists [r]; cbn [length];
          repeat split; [lia|now left + now right]
      end ].
Qed.

Lemma log_attendance_appends_at_most_one_witness :
  (exists added,
     attendance_records (db (snd (log_attendance ex_monday "2211001" ex_world_open)))
     = (attendance_records (db ex_world_open) ++ added)%list /\
     (length added <= 1)%nat /\
     (fst (log_attendance ex_monday "2211001" ex_world_open) = Written ->
      length added = 1%nat) /\
     (added <> [] ->
      fst (log_attendance ex_monday "2211001" ex_world_open) = Written \/
      fst (log_attendance ex_monday "2211001" ex_world_open) = Failed)) /\
  current_attendance_window (snd (log_attendance ex_monday "2211001" ex_world_open))
  = current_attendance_window ex_world_open /\
  last_window_check (snd (log_attendance ex_monday "2211001" ex_world_open))
  = last_window_check ex_world_open /\
  supabase (snd (log_attendance ex_monday "2211001" ex_world_open))
  = supabase ex_world_open.
Proof.
  apply (log_attendance_appends_at_most_one ex_monday "2211001" ex_world_open).
  apply surjective_pairing.
Defined.

Ltac keep_sets w0 Hlog :=
  match goal with
  | |- forall s, logged_set ?a s = _ =>
      let t := fresh "sct" in
      intros t; rewrite <- Hlog; unfold logged_set; state_simpl; congruence
  end.

(** X8.  When the record has been inserted and a later step of the
    same call raises (the select or the insert on
    [student_course_attendance]), the call returns False although the
    attendance record is stored, and the student is not added to the
    section's set. *)
Theorem failure_after_insert_keeps_record clk m w o w' evs :
  log_attendance clk m w = (o, w') ->
  calls_added w w' evs ->
  In {| ev_op := Insert; ev_table := "attendance_records"; ev_ok := true |} evs ->
  o = Failed ->
  returned o = false /\
  (exists rec, attendance_records (db w')
               = (attendance_records (db w) ++ [rec])%list) /\
  (forall s, logged_set w' s = logged_set w s).
Proof.
  unfold log_attendance.
  destruct (current_attendance_window w) as [win|] eqn:Hw;
    [|intros [= <- <-] _ _ Ho; discriminate Ho].
  destruct (supabase w) eqn:Hs; cbn [negb];
    [|intros [= <- <-] _ _ Ho; discriminate Ho].
  destruct (ensure_logged_set_spec (section_id win) w) as ([] & Hlog & _).
  set (w0 := ensure_logged_set (section_id win) w) in *. clearbody w0.
  destruct (decide (m ∈ logged_set w0 (section_id win))) as [_|Hm];
    [intros [= <- <-] _ _ Ho; discriminate Ho|].
  run_body; intros [= <- <-] Htr Hin Ho; try discriminate Ho;
    use_helper_specs; read_calls Htr evs; absurd_call Hin.
  all: split; [reflexivity|].
  all: split;
    [ eexists;
      match goal with
      | |- (attendance_records (db ?a) ++ _)%list = _ =>
          replace (attendance_records (db a)) with (attendance_records (db w))
            by congruence
      end; reflexivity
    | keep_sets w0 Hlog ].
Qed.

Lemma failure_after_insert_keeps_record_witness :
  returned (fst (log_attendance ex_monday "2211001" ex_world_absence_fails)) = false /\
  (exists rec,
     attendance_records
       (db (snd (log_attendance ex_monday "2211001" ex_world_absence_fails)))
     = (attendance_records (db ex_world_absence_fails) ++ [rec])%list) /\
  (forall s,
     logged_set (snd (log_attendance ex_monday "2211001" ex_world_absence_fails)) s
     = logged_set ex_world_absence_fails s).
Proof.
  apply (failure_after_insert_keeps_record ex_monday "2211001" _ _ _
           [ {| ev_op := Select; ev_table := "students"; ev_ok := true |};
             {| ev_op := Select; ev_table := "student_section_enrollments"; ev_ok := true |};
             {| ev_op := Select; ev_table := "class_sessions"; ev_ok := true |};
             {| ev_op := Insert; ev_table := "class_sessions"; ev_ok := true |};
             {| ev_op := Select; ev_table := "attendance_records"; ev_ok := true |};
             {| ev_op := Insert; ev_table := "attendance_records"; ev_ok := true |};
             {| ev_op := Select; ev_table := "student_course_attendance"; ev_ok := false |} ]).
  - apply surjective_pairing.
  - vm_compute. reflexivity.
  - simpl. tauto.
  - vm_compute. reflexivity.
Defined.

(** After such a call the next one finds the record in storage, marks
    the student and returns False again: the row of
    [student_course_attendance] is never created. *)
Example failure_after_insert_then_duplicate :
  fst (log_attendance ex_monday "2211001"
         (snd (log_attendance ex_monday "2211001" ex_world_absence_fails)))
  = AlreadyInStorage /\
  student_course_attendance
    (db (snd (log_attendance ex_monday "2211001"
                (snd (log_attendance ex_monday "2211001" ex_world_absence_fails)))))
  = [] /\
  List.map ar_id
    (attendance_records
       (db (snd (log_attendance ex_monday "2211001"
                   (snd (log_attendance ex_monday "2211001" ex_world_absence_fails))))))
  = ["att_S1_session_SEC1_2025-01-06_2025-01-06"].
Proof. vm_compute. auto. Qed.

(** ** Frame dispatch *)

Lemma try_enqueue_eq {frame} (q : Dispatch.queue frame) (f : frame) :
  Dispatch.try_enqueue frame q f =
  if 3 <=? Z.of_nat (length q) then (false, q) else (true, (q ++ [f])%list).
Proof.
  unfold Dispatch.try_enqueue, Dispatch.try_enqueue_at, Dispatch.put_nowait,
    Dispatch.full, Dispatch.qsize, CONFIG.FACE_QUEUE_MAXSIZE.
  cbn [andb Z.ltb Z.compare].
  destruct (3 <=? Z.of_nat (length q)); reflexivity.
Qed.

Lemma run_queue_invariant {frame} (ops : list (queue_op frame)) (r : queue_run frame)
    (q0 : list frame) :
  (delivered r ++ pending r)%list = (q0 ++ accepted r)%list ->
  (length (pending r) <= 3)%nat ->
  (delivered (run_queue ops r) ++ pending (run_queue ops r))%list
  = (q0 ++ accepted (run_queue ops r))%list /\
  (length (pending (run_queue ops r)) <= 3)%nat.
Proof.
  revert r. induction ops as [|[f|] ops IH]; intros r Hfifo Hlen; cbn [run_queue].
  - auto.
  - rewrite try_enqueue_eq.
    destruct (Z.leb_spec 3 (Z.of_nat (length (pending r)))).
    + apply IH; cbn [delivered pending accepted]; auto.
    + apply IH; cbn [delivered pending accepted].
      * now rewrite !app_assoc, Hfifo.
      * rewrite length_app. cbn [length]. lia.
  - destruct (pending r) as [|f q'] eqn:Hq; cbn [queue_get].
    + apply IH; [now rewrite Hq|rewrite Hq; cbn [length]; lia].
    + apply IH; cbn [delivered pending accepted].
      * rewrite <- Hfifo, <- app_assoc. reflexivity.
      * cbn [length] in Hlen. lia.
Qed.

(** X9.  Over any sequence of hand-overs by the streaming loop and
    requests by the worker, starting from an empty queue: the worker
    receives the accepted frames in the order they were accepted, each
    once; what it has not received yet is what is still queued; and the
    queue never holds more than three frames. *)
Theorem queue_is_fifo_and_bounded {frame : Type} (ops : list (queue_op frame)) :
  let r := run_queue ops
             {| accepted := []; dropped := []; delivered := []; pending := [] |} in
  (delivered r ++ pending r)%list = accepted r /\
  (length (pending r) <= 3)%nat.
Proof.
  cbn zeta.
  apply (run_queue_invariant ops
           {| accepted := []; dropped := []; delivered := []; pending := [] |} []);
    cbn [delivered pending accepted app length]; [reflexivity|lia].
Qed.

Example queue_run_sample :
  run_queue [Put 1; Put 2; Put 3; Put 4; Get; Put 5; Get; Get; Get; Get]%nat
    {| accepted := []; dropped := []; delivered := []; pending := [] |}
  = {| accepted := [1; 2; 3; 5]%nat; dropped := [4]%nat;
       delivered := [1; 2; 3; 5]%nat; pending := [] |}.
Proof. reflexivity. Qed.

(** ** Known faces *)

Lemma split_last_some c s b e :
  split_last c s = Some (b, e) ->
  s = b +:+ String c e /\ split_last c e = None.
Proof.
  revert b. induction s as [|a s IH]; intros b; cbn [split_last]; [discriminate|].
  destruct (split_last c s) as [[b' e']|] eqn:E.
  - intros [= <- <-]. destruct (IH b' eq_refl) as [-> Hn]. now split.
  - destruct (Ascii.eqb_spec a c) as [->|]; [|discriminate].
    intros [= <- <-]. now split.
Qed.

Lemma split_last_app c b e :
  split_last c e = None -> split_last c (b +:+ String c e) = Some (b, e).
Proof.
  intros He. induction b as [|a b IH]; simpl.
  - now rewrite He, Ascii.eqb_refl.
  - now rewrite IH.
Qed.

Lemma lower_char_dot a : Ascii.eqb (lower_char a) "." = Ascii.eqb a ".".
Proof. destruct a as [[] [] [] [] [] [] [] []]; reflexivity. Qed.

Lemma split_last_lower s :
  split_last "." (lower s)
  = match split_last "." s with
    | Some (b, e) => Some (lower b, lower e)
    | None => None
    end.
Proof.
  induction s as [|a s IH]; cbn [lower split_last]; [reflexivity|].
  rewrite IH. destruct (split_last "." s) as [[b e]|]; [reflexivity|].
  rewrite lower_char_dot. now destruct (Ascii.eqb a ".").
Qed.

Lemma endswith_iff s suffix :
  endswith s suffix = true <-> exists b, s = b +:+ suffix.
Proof.
  induction s as [|a s IH]; cbn [endswith].
  - destruct (String.eqb_spec "" suffix) as [<-|Hne].
    + split; [intros _; now exists ""|reflexivity].
    + split; [discriminate|]. intros [b Hb].
      destruct b; [change ("" +:+ suffix) with suffix in Hb; congruence|discriminate].
  - destruct (String.eqb_spec (String a s) suffix) as [<-|Hne].
    + split; [intros _; now exists ""|reflexivity].
    + rewrite IH. split.
      * intros [b ->]. now exists (String a b).
      * intros [[|a' b] Hb].
        -- change ("" +:+ suffix) with suffix in Hb. congruence.
        -- change (String a' b +:+ suffix) with (String a' (b +:+ suffix)) in Hb.
           injection Hb as _ ->. now exists b.
Qed.

Lemma endswith_extension s x :
  split_last "." x = None ->
  endswith s ("." +:+ x)
  = match split_last "." s with
    | Some (_, e) => String.eqb e x
    | None => false
    end.
Proof.
  intros Hx. apply eq_true_iff_eq. rewrite endswith_iff. split.
  - intros [b ->]. change ("." +:+ x) with (String "." x).
    rewrite (split_last_app "." b x Hx).
    apply String.eqb_refl.
  - destruct (split_last "." s) as [[b e]|] eqn:E; [|discriminate].
    intros He. apply String.eqb_eq in He. subst e.
    destruct (split_last_some _ _ _ _ E) as [-> _]. now exists b.
Qed.

(** X10.  [upload_image] and [load_faces] agree on what an image file
    is: [allowed_file] accepts a name exactly when the test of
    [load_faces] does, and that is when the name has the form
    stem.ext with ext one of png, jpg, jpeg in any letter case and no
    dot in ext.  (A name with nothing before the dot, such as [.png], is
    accepted by both.) *)
Theorem allowed_file_agrees_with_load_faces (filename : string) :
  allowed_file filename = is_image_name filename /\
  (allowed_file filename = true <->
   exists stem ext,
     filename = stem +:+ "." +:+ ext /\ split_last "." ext = None /\
     In (lower ext) ALLOWED_EXTENSIONS).
Proof.
  split.
  - unfold allowed_file, is_image_name, ALLOWED_EXTENSIONS. cbn [existsb].
    change ".jpg" with ("." +:+ "jpg"). change ".jpeg" with ("." +:+ "jpeg").
    change ".png" with ("." +:+ "png").
    rewrite !endswith_extension by reflexivity. rewrite split_last_lower.
    destruct (split_last "." filename) as [[b e]|]; [|reflexivity].
    destruct (String.eqb (lower e) "png"), (String.eqb (lower e) "jpg"),
      (String.eqb (lower e) "jpeg"); reflexivity.
  - unfold allowed_file. split.
    + destruct (split_last "." filename) as [[b e]|] eqn:E; [|discriminate].
      intros H. apply existsb_exists in H. destruct H as (x & Hin & Hx).
      apply String.eqb_eq in Hx. subst x.
      destruct (split_last_some _ _ _ _ E) as [-> Hn].
      exists b, e. auto.
    + intros (stem & ext & -> & Hn & Hin).
      change ("." +:+ ext) with (String "." ext).
      rewrite (split_last_app "." stem ext Hn).
      apply existsb_exists. exists (lower ext). split; [exact Hin|].
      apply String.eqb_refl.
Qed.

Example allowed_file_samples :
  allowed_file "ali.JPG" = true /\ allowed_file ".png" = true /\
  allowed_file "a.jpg.exe" = false /\ allowed_file "jpg" = false /\
  splitext ".png" = (".png", "") /\ splitext " ali.jpg" = (" ali", ".jpg") /\
  strip " ali" = "ali".
Proof. vm_compute. repeat split. Qed.

(** The two lists of the registry line up. *)
Lemma load_files_aligned {encoding} (enc : string -> result (list encoding))
    (listing : list string) (r : faces encoding) :
  length (known_face_encodings r) = length (known_face_names r) ->
  length (known_face_encodings (load_files encoding enc listing r))
  = length (known_face_names (load_files encoding enc listing r)).
Proof.
  revert r. induction listing as [|f listing IH]; intros r Hr; cbn [load_files];
    [exact Hr|].
  destruct (is_image_name f); [|now apply IH].
  destruct (enc f) as [[|e es]|]; try now apply IH.
  apply IH. cbn [known_face_encodings known_face_names].
  rewrite !length_app. cbn [length]. lia.
Qed.

Lemma upload_image_aligned {encoding} (file : option string)
    (io : upload_io encoding) (r : faces encoding) :
  aligned r -> aligned (snd (upload_image encoding file io r)).
Proof.
  unfold aligned, upload_image. intros Hr.
  destruct file as [filename|]; [|exact Hr].
  destruct (String.eqb filename "" || negb (allowed_file filename)); [exact Hr|].
  destruct (save_raises io); [exact Hr|].
  destruct (uploaded_encodings io) as [[|e es]|]; try exact Hr.
  - destruct (remove_raises io); exact Hr.
  - cbn [snd known_face_encodings known_face_names].
    rewrite !length_app. cbn [length]. lia.
Qed.

Lemma after_uploads_aligned {encoding}
    (uploads : list (option string * upload_io encoding)) (r : faces encoding) :
  aligned r -> aligned (after_uploads uploads r).
Proof.
  revert r. induction uploads as [|[file io] uploads IH]; intros r Hr;
    cbn [after_uploads fold_left fst snd]; [exact Hr|].
  apply IH. now apply upload_image_aligned.
Qed.

(** X11.  The registry of known faces keeps one name per encoding:
    after [load_faces], whatever the two lists held before and whatever
    the directory holds, and after any series of uploads that follows,
    the two lists have the same length.  An upload answers 200 exactly
    when it appended one encoding together with the stripped stem of
    the file name, which [allowed_file] accepted; with any other status
    the registry is as before. *)
Theorem registry_stays_aligned {encoding : Type}
    (face_encodings : string -> result (list encoding)) (listing : list string)
    (uploads : list (option string * upload_io encoding)) (r0 : faces encoding) :
  aligned (after_uploads uploads (load_faces encoding face_encodings listing r0)) /\
  forall (file : option string) (io : upload_io encoding) (r : faces encoding),
    (fst (upload_image encoding file io r) = 200 ->
     exists filename e,
       file = Some filename /\ allowed_file filename = true /\
       known_face_encodings (snd (upload_image encoding file io r))
       = (known_face_encodings r ++ [e])%list /\
       known_face_names (snd (upload_image encoding file io r))
       = (known_face_names r ++ [strip (fst (splitext filename))])%list) /\
    (fst (upload_image encoding file io r) <> 200 ->
     snd (upload_image encoding file io r) = r).
Proof.
  split.
  - apply after_uploads_aligned. unfold load_faces.
    apply load_files_aligned. reflexivity.
  - intros file io r. unfold upload_image.
    destruct file as [filename|]; [|split; [discriminate|reflexivity]].
    destruct (String.eqb filename "") eqn:He; cbn [orb];
      [split; [discriminate|reflexivity]|].
    destruct (allowed_file filename) eqn:Ha; cbn [negb];
      [|split; [discriminate|reflexivity]].
    destruct (save_raises io); [split; [discriminate|reflexivity]|].
    destruct (uploaded_encodings io) as [[|e es]|];
      [destruct (remove_raises io)|..];
      try (split; [discriminate|reflexivity]).
    split; [|intros H; now contradiction H].
    intros _. exists filename, e. cbn [snd known_face_encodings known_face_names].
    auto.
Qed.

(** The same file gives one name at upload and another at the next
    reload when its stem starts or ends with white space: only
    [upload_image] strips it. *)
Example upload_then_reload_name :
  known_face_names
    (snd (upload_image nat (Some " ali.jpg")
            {| save_raises := false; uploaded_encodings := Ok [7%nat];
               remove_raises := false |}
            {| known_face_encodings := []; known_face_names := [] |}))
  = ["ali"] /\
  known_face_names
    (load_faces nat (fun _ => Ok [7%nat]) [" ali.jpg"]
       {| known_face_encodings := []; known_face_names := [] |})
  = [" ali"].
Proof. vm_compute. split; reflexivity. Qed.

(** ** Recognition worker *)

Lemma argmin_from_least {dist} (ltb : dist -> dist -> bool) :
  (forall a, ltb a a = false) ->
  (forall a b c, ltb a b = true -> ltb b c = true -> ltb a c = true) ->
  forall (l pre : list dist) (best_i : nat) (best : dist),
    nth_error pre best_i = Some best ->
    (forall d', In d' pre -> ltb d' best = false) ->
    exists d,
      nth_error (pre ++ l) (argmin_from ltb best_i best (length pre) l) = Some d /\
      forall d', In d' (pre ++ l) -> ltb d' d = false.
Proof.
  intros Hirr Htr. induction l as [|d l IH]; intros pre best_i best Hb Hmin;
    cbn [argmin_from].
  - exists best. rewrite app_nil_r. auto.
  - assert (Hlen : length (pre ++ [d]) = S (length pre))
      by (rewrite length_app; cbn [length]; lia).
    replace (pre ++ d :: l)%list with ((pre ++ [d]) ++ l)%list
      by (now rewrite <- app_assoc).
    rewrite <- Hlen.
    destruct (ltb d best) eqn:Hd.
    + apply IH.
      * rewrite nth_error_app2 by lia. now rewrite Nat.sub_diag.
      * intros d' [Hin|[<-|[]]]%in_app_or; [|apply Hirr].
        destruct (ltb d' d) eqn:Hd'; [|reflexivity].
        rewrite <- (Hmin d' Hin). symmetry. now apply (Htr d' d best).
    + apply IH.
      * rewrite nth_error_app1; [exact Hb|].
        apply nth_error_Some. now rewrite Hb.
      * intros d' [Hin|[<-|[]]]%in_app_or; [now apply Hmin|exact Hd].
Qed.

Lemma argmin_least {dist} (ltb : dist -> dist -> bool) (d0 : dist) (l : list dist) :
  (forall a, ltb a a = false) ->
  (forall a b c, ltb a b = true -> ltb b c = true -> ltb a c = true) ->
  exists d,
    nth_error (d0 :: l) (argmin ltb (d0 :: l)) = Some d /\
    forall d', In d' (d0 :: l) -> ltb d' d = false.
Proof.
  intros Hirr Htr. cbn [argmin].
  apply (argmin_from_least ltb Hirr Htr l [d0] 0%nat d0); [reflexivity|].
  intros d' [<-|[]]. apply Hirr.
Qed.

(** X12.  The name given to a face.  With one name per known encoding
    (and so per distance), and distances that [<] orders, the worker
    never indexes out of range, and: with no known face the name is
    Unknown; otherwise it looks at one known face only, one that no
    other is strictly closer than, and gives its name when its distance
    is within the tolerance and strictly below it, and Unknown if not. *)
Theorem recognise_names_closest_face {dist : Type}
    (dist_leb dist_ltb : dist -> dist -> bool) (tolerance : dist)
    (known_face_names : list string) (face_distances : list dist) :
  (forall a, dist_ltb a a = false) ->
  (forall a b c, dist_ltb a b = true -> dist_ltb b c = true -> dist_ltb a c = true) ->
  length known_face_names = length face_distances ->
  (face_distances = [] /\
   recognise dist_leb dist_ltb tolerance known_face_names face_distances
   = Ok "Unknown") \/
  exists (i : nat) (d : dist) (name : string),
    nth_error face_distances i = Some d /\
    nth_error known_face_names i = Some name /\
    (forall d', In d' face_distances -> dist_ltb d' d = false) /\
    recognise dist_leb dist_ltb tolerance known_face_names face_distances
    = Ok (if dist_leb d tolerance && dist_ltb d tolerance then name else "Unknown").
Proof.
  intros Hirr Htr Hlen.
  destruct face_distances as [|d0 l]; [left; split; reflexivity|right].
  destruct (argmin_least dist_ltb d0 l Hirr Htr) as (d & Hd & Hmin).
  set (ds := d0 :: l) in *.
  destruct (nth_error known_face_names (argmin dist_ltb ds)) as [name|] eqn:Hn.
  - exists (argmin dist_ltb ds), d, name. repeat split; try assumption.
    unfold recognise. fold ds. subst ds.
    change (match d0 :: l with [] => ?a | _ :: _ => ?b end) with b.
    cbv zeta. rewrite nth_error_map, Hd, Hn. cbn [option_map].
    destruct (dist_leb d tolerance && dist_ltb d tolerance); reflexivity.
  - exfalso. apply nth_error_None in Hn.
    assert (argmin dist_ltb ds < length ds)%nat
      by (apply nth_error_Some; now rewrite Hd).
    lia.
Qed.

Lemma recognise_names_closest_face_witness :
  ([70; 40] = [] /\
   recognise Z.leb Z.ltb 60 ["2211001"; "2211002"] [70; 40] = Ok "Unknown") \/
  exists (i : nat) (d : Z) (name : string),
    nth_error [70; 40] i = Some d /\
    nth_error ["2211001"; "2211002"] i = Some name /\
    (forall d', In d' [70; 40] -> Z.ltb d' d = false) /\
    recognise Z.leb Z.ltb 60 ["2211001"; "2211002"] [70; 40]
    = Ok (if Z.leb d 60 && Z.ltb d 60 then name else "Unknown").
Proof.
  apply (recognise_names_closest_face Z.leb Z.ltb 60 ["2211001"; "2211002"] [70; 40]).
  - intros a. apply Z.ltb_irrefl.
  - intros a b c. rewrite !Z.ltb_lt. lia.
  - reflexivity.
Defined.

(** The closest face decides alone; a registry with fewer names than
    encodings makes the worker raise; a distance equal to the tolerance
    is no match. *)
Example recognise_samples :
  recognise Z.leb Z.ltb 60 ["2211001"; "2211002"] [70; 40] = Ok "2211002" /\
  recognise Z.leb Z.ltb 60 ["2211001"; "2211002"] [70; 65] = Ok "Unknown" /\
  recognise Z.leb Z.ltb 60 ["2211001"; "2211002"] [60; 60] = Ok "Unknown" /\
  recognise Z.leb Z.ltb 60 ["2211001"] [70; 40] = Raise IndexError /\
  recognise Z.leb Z.ltb 60 [] [] = Ok "Unknown".
Proof. vm_compute. repeat split. Qed.

Lemma window_check_keeps_rows clk w :
  db (snd (get_current_attendance_window clk w)) = db w /\
  attendance_logged_today (snd (get_current_attendance_window clk w))
  = attendance_logged_today w.
Proof. run_window; split; reflexivity. Qed.

Lemma log_attendance_appends clk m w :
  exists added,
    attendance_records (db (snd (log_attendance clk m w)))
    = (attendance_records (db w) ++ added)%list /\
    (length added <= 1)%nat.
Proof.
  assert (Hnone : forall l : list attendance_record,
             exists added, l = (l ++ added)%list /\ (length added <= 1)%nat).
  { intros l. exists []. rewrite app_nil_r. cbn [length]. split; [reflexivity|lia]. }
  destruct (log_attendance clk m w) as [o w'] eqn:E. cbn [snd].
  revert E. unfold log_attendance.
  destruct (current_attendance_window w) as [win|] eqn:Hw;
    [|intros [= <- <-]; apply Hnone].
  destruct (supabase w) eqn:Hs; cbn [negb];
    [|intros [= <- <-]; apply Hnone].
  destruct (ensure_logged_set_spec (section_id win) w) as ([? Hsldb ? ? ? ? ?] & Hlog & _).
  set (w0 := ensure_logged_set (section_id win) w) in *. clearbody w0.
  destruct (decide (m ∈ logged_set w0 (section_id win))) as [_|Hm].
  { intros [= <- <-]. rewrite Hsldb. apply Hnone. }
  run_body; intros [= <- <-]; use_helper_specs.
  all: first
    [ match goal with
      | |- exists added, attendance_records (db ?a) = _ /\ _ =>
          replace (attendance_records (db a)) with (attendance_records (db w))
            by congruence;
          apply Hnone
      end
    | match goal with
      | |- exists added, (attendance_records (db ?a) ++ [?r])%list = _ /\ _ =>
          replace (attendance_records (db a)) with (attendance_records (db w))
            by congruence;
          exists [r]; cbn [length]; split; [reflexivity|lia]
      end ].
Qed.

Lemma recognise_faces_appends {dist} (leb ltb : dist -> dist -> bool) (tol : dist)
    (window : option window) (names : list string)
    (faces_seen : list (list dist * clock)) :
  forall (results : list string) (w : world),
  exists added,
    attendance_records
      (db (snd (recognise_faces leb ltb tol window names faces_seen results w)))
    = (attendance_records (db w) ++ added)%list /\
    (length added <= length (List.filter (recognised leb ltb tol names) faces_seen))%nat /\
    (window = None -> added = []).
Proof.
  induction faces_seen as [|[ds clk] rest IH]; intros results w;
    cbn [recognise_faces List.filter].
  - exists []. rewrite app_nil_r. cbn [snd length]. auto.
  - unfold recognised at 1. cbn [fst].
    destruct (recognise leb ltb tol names ds) as [name|e].
    + destruct (negb (String.eqb name "Unknown")); cbn [andb].
      * destruct window as [win|].
        -- rewrite bool_decide_eq_true_2 by (now eexists).
           destruct (log_attendance_appends clk name w) as (a1 & E1 & L1).
           destruct (IH (results ++ [name])%list (snd (log_attendance clk name w)))
             as (a2 & E2 & L2 & _).
           exists (a1 ++ a2)%list. rewrite E2, E1, <- app_assoc.
           split; [reflexivity|]. split; [|discriminate].
           rewrite length_app. cbn [length]. lia.
        -- rewrite bool_decide_eq_false_2 by (intros [? [=]]).
           destruct (IH (results ++ [name])%list w) as (a2 & E2 & L2 & N2).
           exists a2. split; [exact E2|]. split; [cbn [length]; lia|exact N2].
      * destruct (IH (results ++ [name])%list w) as (a2 & E2 & L2 & N2).
        exists a2. auto.
    + exists []. rewrite app_nil_r. cbn [snd length]. split; [reflexivity|].
      split; [lia|auto].
Qed.

(** X13.  What one frame can add to the attendance records: stored
    records are kept, at most one is appended for each face that was
    given the name of a known face, none for a face named Unknown, and
    none at all when the window check of the frame finds no window or
    when detection raises. *)
Theorem worker_frame_logs_recognised_faces {dist : Type}
    (dist_leb dist_ltb : dist -> dist -> bool) (tolerance : dist) (clk : clock)
    (known_face_names : list string)
    (detection : result (list (list dist * clock)))
    (detected_faces : list string) (w : world) :
  exists added,
    attendance_records
      (db (snd (worker_frame dist_leb dist_ltb tolerance clk known_face_names
                  detection detected_faces w)))
    = (attendance_records (db w) ++ added)%list /\
    (length added <=
     match detection with
     | Ok faces_seen =>
         length (List.filter (recognised dist_leb dist_ltb tolerance known_face_names)
                   faces_seen)
     | Raise _ => 0
     end)%nat /\
    (fst (get_current_attendance_window clk w) = None -> added = []).
Proof.
  unfold worker_frame.
  destruct (window_check_keeps_rows clk w) as [Hdb _].
  destruct (get_current_attendance_window clk w) as [window w1]. cbn [fst snd] in *.
  destruct detection as [faces_seen|e].
  - destruct (recognise_faces_appends dist_leb dist_ltb tolerance window
                known_face_names faces_seen [] w1) as (added & E & L & N).
    exists added. rewrite <- Hdb.
    destruct (recognise_faces dist_leb dist_ltb tolerance window known_face_names
                faces_seen [] w1) as [[results|e] w2]; cbn [snd] in *; auto.
  - exists []. cbn [snd length]. rewrite app_nil_r, Hdb. auto.
Qed.

(** ** Streaming loop *)

Lemma display_names_reads_only (detected : list string) :
  forall w : world,
    db (snd (display_names detected w)) = db w /\
    attendance_logged_today (snd (display_names detected w))
    = attendance_logged_today w.
Proof.
  induction detected as [|name rest IH]; intros w; cbn [display_names];
    [split; reflexivity|].
  assert (Hw1 : exists student w1,
             (if negb (String.eqb name "Unknown") then get_student_cached name w
              else (None, w)) = (student, w1) /\
             db w1 = db w /\ attendance_logged_today w1 = attendance_logged_today w).
  { destruct (negb (String.eqb name "Unknown")).
    - destruct (get_student_cached name w) as [v w1] eqn:E.
      destruct (get_student_cached_spec name w v w1 E) as ([] & Hdb & _).
      exists v, w1. auto.
    - exists None, w. auto. }
  destruct Hw1 as (student & w1 & -> & Hdb & Hlog).
  destruct (IH w1) as [Hdb2 Hlog2].
  destruct (display_names rest w1) as [names w2]. cbn [snd] in *.
  split; congruence.
Qed.

(** X14.  One pass of the streaming loop never writes: stored rows and
    the sets of logged students are as before.  Without a frame, or
    while the stream is paused, the frame counter and the queue stay as
    they are.  Otherwise the counter advances by one and the queue is
    unchanged or has the frame appended, the latter only with an open
    window, a counter that is a multiple of the configured number, and
    fewer than three frames waiting. *)
Theorem stream_pass_never_logs {frame : Type} (clk : clock) (n : Z)
    (i : stream_input frame) (st : stream frame) (w : world) :
  let st' := snd (fst (stream_pass clk n i st w)) in
  let w' := snd (stream_pass clk n i st w) in
  let window := fst (get_current_attendance_window clk w) in
  (db w' = db w /\ attendance_logged_today w' = attendance_logged_today w) /\
  (latest_frame i = None \/ is_streaming i = false -> st' = st) /\
  (forall f, latest_frame i = Some f -> is_streaming i = true ->
     frame_counter st' = frame_counter st + 1 /\
     (face_queue st' = face_queue st \/
      face_queue st' = (face_queue st ++ [f])%list /\
      (length (face_queue st) < 3)%nat /\
      should_process window (frame_counter st + 1) n = Some true)).
Proof.
  cbv zeta. unfold stream_pass.
  destruct (latest_frame i) as [f|];
    [|cbn [fst snd]; split; [split; reflexivity|]; split;
      [reflexivity|intros f [=]]].
  destruct (window_check_keeps_rows clk w) as [Hdb Hlog].
  destruct (get_current_attendance_window clk w) as [window w1]. cbn [fst snd] in *.
  destruct (is_streaming i); cbn [negb];
    [|cbn [fst snd]; split; [split; assumption|]; split;
      [reflexivity|intros f' _ [=]]].
  destruct (should_process window (frame_counter st + 1) n) as [go|] eqn:Hgo.
  - destruct (display_names_reads_only (detected_faces i) w1) as [Hdb2 Hlog2].
    destruct (display_names (detected_faces i) w1) as [names w2].
    cbn [fst snd frame_counter face_queue] in *.
    split; [split; congruence|]. split; [intros [[=]|[=]]|].
    intros f' [= <-] _. split; [reflexivity|].
    destruct go; [|now left].
    rewrite try_enqueue_eq.
    destruct (Z.leb_spec 3 (Z.of_nat (length (face_queue st)))); cbn [snd];
      [now left|right].
    split; [reflexivity|]. split; [lia|reflexivity].
  - cbn [fst snd frame_counter face_queue].
    split; [split; assumption|]. split; [intros [[=]|[=]]|].
    intros f' _ _. split; [reflexivity|now left].
Qed.
